(** * chatbot_service: a shallow embedding of [app.py]

    The program is a Streamlit chat page in front of an AWS Bedrock model.
    Three functions carry its logic:

    - [init_bedrock_client]   (app.py 8-21)   the cached client constructor,
    - [call_bedrock_api]      (app.py 23-76)  the retrying invoker,
    - [local_chatbot_response](app.py 78-91)  the keyword responder,

    and [main] (app.py 94-164) wires them to the page.  Python values are
    embedded as an inductive type, Python [str] as UTF-8 encoded
    [String.string], and everything the program does to the outside world
    (the page, the clock, [time.sleep], boto3, the Bedrock service, the
    Streamlit resource cache, the list object behind
    [st.session_state.messages]) as explicit state passing over a [World],
    with the outside world's answers supplied by an [Env] of oracles. *)

From Stdlib Require Import Strings.String Strings.Ascii ZArith QArith Lia.
From Stdlib Require Import DecimalString.
From stdpp Require Import gmap strings list.

Set Warnings "-register-all".
Local Open Scope string_scope.
Local Open Scope list_scope.

(** ** Python [str] operations

    A Python [str] is a sequence of code points; it is embedded as the
    string of its UTF-8 bytes.  UTF-8 is self-synchronising, so for
    well-formed strings [needle in haystack] on code points and on bytes
    agree, and a code point starts at every byte that is not a
    continuation byte (10xxxxxx). *)
Module PyStr.

(** [needle in haystack] for two [str] operands. *)
Fixpoint contains (needle haystack : string) : bool :=
  String.prefix needle haystack
  || match haystack with
     | EmptyString => false
     | String _ rest => contains needle rest
     end.

(** The newline of an f-string's [\n]. *)
Definition nl : string := String (ascii_of_nat 10) EmptyString.

(** [str(n)] / [f"{n}"] for an [int]. *)
Definition of_int (n : Z) : string := NilZero.string_of_int (Z.to_int n).

(** The [%H] and [%M] fields of [time.strftime]: two digits, zero padded. *)
Definition two_digits (n : nat) : string :=
  if (n <? 10)%nat then "0" +:+ of_int (Z.of_nat n) else of_int (Z.of_nat n).

Definition is_continuation (a : ascii) : bool :=
  let n := nat_of_ascii a in ((128 <=? n) && (n <? 192))%nat.

(** The bytes of [s] up to the start of its second code point, and the
    rest: one step of iterating a [str]. *)
Fixpoint take_continuation (s : string) : string * string :=
  match s with
  | EmptyString => (EmptyString, EmptyString)
  | String a rest =>
      if is_continuation a
      then let '(c, r) := take_continuation rest in (String a c, r)
      else (EmptyString, s)
  end.

(** [list(s)]: the one-character strings of [s], in order.  [fuel] bounds
    the number of characters; [String.length s] always suffices. *)
Fixpoint chars_aux (fuel : nat) (s : string) : list string :=
  match fuel, s with
  | O, _ | _, EmptyString => []
  | S fuel', String a rest =>
      let '(c, r) := take_continuation rest in
      String a c :: chars_aux fuel' r
  end.

Definition chars (s : string) : list string := chars_aux (String.length s) s.

(** ASCII case folding, the part of [str.lower] that acts on bytes below
    128; every other byte is left alone. *)
Definition lower_ascii (a : ascii) : ascii :=
  let n := nat_of_ascii a in
  if ((65 <=? n) && (n <=? 90))%nat then ascii_of_nat (n + 32) else a.

Fixpoint lower (s : string) : string :=
  match s with
  | EmptyString => EmptyString
  | String a rest => String (lower_ascii a) (lower rest)
  end.

(** No byte of [s] is an ASCII letter: [s] has no cased ASCII character. *)
Fixpoint caseless (s : string) : bool :=
  match s with
  | EmptyString => true
  | String a rest =>
      let n := nat_of_ascii a in
      negb (((65 <=? n) && (n <=? 90)) || ((97 <=? n) && (n <=? 122)))%nat
      && caseless rest
  end.

End PyStr.

(** ** The local responder (app.py 78-91) *)

(** What [time.localtime()] gives to [time.strftime('%H:%M')]. *)
Record LocalTime := { tm_hour : nat; tm_min : nat }.

(** [time.strftime('%H:%M')] *)
Definition strftime_HM (t : LocalTime) : string :=
  PyStr.two_digits (tm_hour t) +:+ ":" +:+ PyStr.two_digits (tm_min t).

Definition greeting_reply : string := "안녕하세요! 무엇을 도와드릴까요?".
Definition name_reply : string := "저는 AI 챗봇입니다.".
Definition weather_reply : string :=
  "죄송하지만 실시간 날씨 정보는 제공할 수 없습니다.".
Definition time_reply (now : LocalTime) : string :=
  "현재 시간은 대략 " +:+ strftime_HM now +:+ " 입니다.".
Definition generic_fallback : string :=
  "흥미로운 질문이네요! AWS Bedrock이 연결되면 더 자세한 답변을 드릴 수 있을 것입니다.".

(** The dict literal [responses] (app.py 80-85), as the list of its items
    in insertion order, which is the order [responses.items()] iterates
    in.  The dict is rebuilt on every call, and its last value is an
    f-string that calls [time.strftime]: [now] is the clock reading of
    that call. *)
Definition responses (now : LocalTime) : list (string * string) :=
  [ ("안녕", greeting_reply);
    ("이름", name_reply);
    ("날씨", weather_reply);
    ("시간", time_reply now) ].

(** The [for keyword, response in responses.items()] loop (app.py 87-91). *)
Fixpoint first_reply (items : list (string * string)) (user_input : string)
  : option string :=
  match items with
  | [] => None
  | (keyword, response) :: rest =>
      if PyStr.contains keyword user_input then Some response
      else first_reply rest user_input
  end.

Definition local_chatbot_response (now : LocalTime) (user_input : string)
  : string :=
  match first_reply (responses now) user_input with
  | Some response => response
  | None => generic_fallback
  end.

(** ** Python values, exceptions and outcomes *)

(** The values [json.loads] produces, which are also the values a message's
    ["content"] can hold.  A [dict] is the list of its items in insertion
    order; its keys are distinct. *)
Inductive pyval : Type :=
  | PyNone
  | PyBool (b : bool)
  | PyInt (n : Z)
  | PyFloat (literal : string)
  | PyStr (s : string)
  | PyList (items : list pyval)
  | PyDict (items : list (string * pyval)).

(** [d[key]] on the items of a dict, [None] when the key is absent. *)
Fixpoint dict_get (key : string) (items : list (string * pyval))
  : option pyval :=
  match items with
  | [] => None
  | (k, v) :: rest => if String.eqb k key then Some v else dict_get key rest
  end.

(** An instance of [Exception]: what [type(e)] prints between the quotes
    of [<class '...'>], what [str(e)] returns, and whether
    [isinstance(e, client.exceptions.ThrottlingException)].  Only
    [Exception]s are modelled: they are what the libraries raise and what
    [except Exception] catches; the interpreter's exit signals
    ([KeyboardInterrupt], [SystemExit]) are left out. *)
Record PyExc := {
  exc_class : string;
  exc_str : string;
  exc_throttling : bool }.

(** How a call ends. *)
Inductive outcome (A : Type) : Type :=
  | Returns (a : A)
  | Raises (e : PyExc).
Arguments Returns {A} a.
Arguments Raises {A} e.

(** Sequencing: a raise skips the rest of the block.  With these
    instances stdpp's [x ← m; k] reads as Python's statement order. *)
Global Instance outcome_ret : MRet outcome := fun _ a => Returns a.
Global Instance outcome_bind : MBind outcome := fun _ _ k m =>
  match m with
  | Returns a => k a
  | Raises e => Raises e
  end.

(** The interpreter's own [TypeError]s that the program can run into.
    Their wording differs between Python versions and is left to the
    environment. *)
Inductive TypeFault : Type :=
  | NotAContainer (v : pyval)      (* 'content' in v *)
  | BadSubscript (v : pyval)       (* v['content'] *)
  | NotIterable (v : pyval)        (* for char in v *)
  | BadConcat (v : pyval).         (* placeholder_text += v *)

(** ** The world *)

(** A message is the dict [{"role": ..., "content": ...}]; the program
    never changes one after building it. *)
Record Message := { role : string; content : pyval }.

(** The handle [boto3.client] returns.  Every construction makes a new
    object, told apart by its sequence number. *)
Record Client := { client_id : nat }.

Global Instance Client_eq_dec : EqDecision Client.
Proof. solve_decision. Defined.

(** The keyword arguments of [client.invoke_model] (app.py 49-53).  [body]
    is [json.dumps(request_body)]: a serialised copy of the request, which
    holds no reference to the list it was made from. *)
Record RequestBody := {
  anthropic_version : string;
  max_tokens : Z;
  messages : list Message }.

Record InvokeArgs := {
  modelId : string;
  body : RequestBody;
  contentType : string }.

(** What the page is asked to show. *)
Inductive UiEvent : Type :=
  | StError (text : string)
  | StWarning (text : string)
  | StSpinner (text : string)
  | StChatMessage (name : string)
  | StMarkdown (text : pyval)
  | StEmpty
  | StPlaceholderMarkdown (text : pyval).

(** A list object is named by its address. *)
Definition loc := nat.

(** An entry of Streamlit's resource cache: the value the function
    returned and the page elements it emitted, which a cache hit replays. *)
Definition CacheEntry : Type := option Client * list UiEvent.

Record World := {
  lists : gmap loc (list Message);   (* the list objects of the heap *)
  session_messages : loc;            (* st.session_state.messages *)
  resource_cache : option CacheEntry; (* st.cache_resource, this function *)
  constructed : nat;                 (* boto3.client calls so far *)
  invoked : nat;                     (* client.invoke_model calls so far *)
  clock_reads : nat;                 (* time.strftime calls so far *)
  slept : list Q;                    (* time.sleep arguments, in order *)
  ui : list UiEvent }.               (* page elements, in order *)

(** The answers of everything outside the program. *)
Record Env := {
  (* st.secrets[key] *)
  st_secrets : string -> outcome string;
  (* the n-th boto3.client(service, region_name, access key, secret key) *)
  boto3_client : nat -> string -> string -> string -> string -> outcome unit;
  (* app.py 49-56 for the n-th invoke_model call: the call, the read of
     response['body'] and json.loads either raise or give the parsed body *)
  invoke_model : nat -> Client -> InvokeArgs -> outcome pyval;
  (* the clock at the n-th time.strftime call *)
  localtime : nat -> LocalTime;
  (* str(e) of an interpreter TypeError *)
  type_error_text : TypeFault -> string }.

Definition type_error (env : Env) (f : TypeFault) : PyExc :=
  {| exc_class := "TypeError";
     exc_str := type_error_text env f;
     exc_throttling := false |}.

Definition key_error (key : string) : PyExc :=
  {| exc_class := "KeyError";
     exc_str := "'" +:+ key +:+ "'";
     exc_throttling := false |}.

(** *** Primitive effects *)

Definition emit (e : UiEvent) (w : World) : World :=
  {| lists := lists w; session_messages := session_messages w;
     resource_cache := resource_cache w; constructed := constructed w;
     invoked := invoked w; clock_reads := clock_reads w;
     slept := slept w; ui := ui w ++ [e] |}.

Definition emit_all (es : list UiEvent) (w : World) : World :=
  fold_left (fun w e => emit e w) es w.

(** [time.sleep(seconds)] *)
Definition sleep (seconds : Q) (w : World) : World :=
  {| lists := lists w; session_messages := session_messages w;
     resource_cache := resource_cache w; constructed := constructed w;
     invoked := invoked w; clock_reads := clock_reads w;
     slept := slept w ++ [seconds]; ui := ui w |}.

Definition count_construction (w : World) : World :=
  {| lists := lists w; session_messages := session_messages w;
     resource_cache := resource_cache w; constructed := S (constructed w);
     invoked := invoked w; clock_reads := clock_reads w;
     slept := slept w; ui := ui w |}.

Definition count_invocation (w : World) : World :=
  {| lists := lists w; session_messages := session_messages w;
     resource_cache := resource_cache w; constructed := constructed w;
     invoked := S (invoked w); clock_reads := clock_reads w;
     slept := slept w; ui := ui w |}.

Definition count_clock_read (w : World) : World :=
  {| lists := lists w; session_messages := session_messages w;
     resource_cache := resource_cache w; constructed := constructed w;
     invoked := invoked w; clock_reads := S (clock_reads w);
     slept := slept w; ui := ui w |}.

Definition store_cache (entry : CacheEntry) (w : World) : World :=
  {| lists := lists w; session_messages := session_messages w;
     resource_cache := Some entry; constructed := constructed w;
     invoked := invoked w; clock_reads := clock_reads w;
     slept := slept w; ui := ui w |}.

(** The list object at [l], read through any reference to it. *)
Definition read_list (l : loc) (w : World) : list Message :=
  default [] (lists w !! l).

(** [l.append(m)]: the object at [l] changes in place, for every holder of
    a reference to it. *)
Definition list_append (l : loc) (m : Message) (w : World) : World :=
  {| lists := alter (fun ms => ms ++ [m]) l (lists w);
     session_messages := session_messages w;
     resource_cache := resource_cache w; constructed := constructed w;
     invoked := invoked w; clock_reads := clock_reads w;
     slept := slept w; ui := ui w |}.

(** ** The client initialiser (app.py 8-21) *)

(** app.py 12-17: the three secrets are looked up left to right, then
    [boto3.client] is called.  Any of the four can raise. *)
Definition construct_client (env : Env) (w : World)
  : outcome Client * World :=
  match
    region ← st_secrets env "AWS_DEFAULT_REGION";
    access_key ← st_secrets env "AWS_ACCESS_KEY_ID";
    secret_key ← st_secrets env "AWS_SECRET_ACCESS_KEY";
    mret (region, access_key, secret_key)
  with
  | Raises e => (Raises e, w)
  | Returns (region, access_key, secret_key) =>
      let w1 := count_construction w in
      match
        boto3_client env (constructed w)
          "bedrock-runtime" region access_key secret_key
      with
      | Raises e => (Raises e, w1)
      | Returns _ => (Returns {| client_id := constructed w |}, w1)
      end
  end.

Definition init_failed_message (e : PyExc) : string :=
  "AWS Bedrock 클라이언트 초기화 실패: " +:+ exc_str e.

(** The function under the decorator: [try] / [except Exception]. *)
Definition init_bedrock_client_body (env : Env) (w : World)
  : outcome (option Client) * World :=
  match construct_client env w with
  | (Returns client, w1) => (Returns (Some client), w1)
  | (Raises e, w1) => (Returns None, emit (StError (init_failed_message e)) w1)
  end.

(** [@st.cache_resource] on a function without arguments, as Streamlit
    documents it: one entry for the process; on a hit the stored value is
    returned and the stored page elements are replayed, the function is
    not run; on a miss the function runs and, when it returns, whatever it
    returns is stored together with the elements it emitted; when it
    raises, nothing is stored and the exception goes on to the caller.
    (The transient spinner of a miss is not recorded.) *)
Definition cache_resource
    (f : Env -> World -> outcome (option Client) * World)
    (env : Env) (w : World) : outcome (option Client) * World :=
  match resource_cache w with
  | Some (value, elements) => (Returns value, emit_all elements w)
  | None =>
      match f env w with
      | (Returns value, w1) =>
          (Returns value,
           store_cache (value, drop (length (ui w)) (ui w1)) w1)
      | (Raises e, w1) => (Raises e, w1)
      end
  end.

Definition init_bedrock_client : Env -> World -> outcome (option Client) * World :=
  cache_resource init_bedrock_client_body.

(** ** The retrying invoker (app.py 23-76) *)

Definition max_retries : Z := 5.
Definition base_delay : Z := 1.
Definition model_id : string := "anthropic.claude-3-5-sonnet-20240620-v1:0".

Definition no_text_found : string := "응답에서 텍스트를 찾을 수 없습니다.".
Definition max_retries_message : string :=
  "최대 재시도 횟수에 도달했습니다. 잠시 후 다시 시도해 주세요.".

(** The f-string of app.py 70. *)
Definition throttle_warning (delay : Z) : string :=
  "요청이 너무 많습니다. " +:+ PyStr.of_int delay +:+ "초 후 재시도합니다.".

(** The f-string of app.py 73 and 74: [str(e)], a newline, and [type(e)]. *)
Definition error_message (e : PyExc) : string :=
  "오류가 발생했습니다: " +:+ exc_str e +:+ PyStr.nl +:+
  "응답 타입: " +:+ "<class '" +:+ exc_class e +:+ "'>".

(** [range(n)] *)
Definition py_range (n : Z) : list Z := map Z.of_nat (seq 0 (Z.to_nat n)).

(** [key in v] for a [str] key. *)
Definition py_in (env : Env) (key : string) (v : pyval) : outcome bool :=
  match v with
  | PyDict items =>
      Returns (match dict_get key items with Some _ => true | None => false end)
  | PyStr s => Returns (PyStr.contains key s)
  | PyList items =>
      Returns (existsb (fun x => match x with
                                 | PyStr s => String.eqb s key
                                 | _ => false
                                 end) items)
  | _ => Raises (type_error env (NotAContainer v))
  end.

(** [v[key]] for a [str] key. *)
Definition py_getitem (env : Env) (key : string) (v : pyval) : outcome pyval :=
  match v with
  | PyDict items =>
      match dict_get key items with
      | Some x => Returns x
      | None => Raises (key_error key)
      end
  | _ => Raises (type_error env (BadSubscript v))
  end.

(** app.py 62-67: the text of the first content element, or the fixed
    string.  [and] short-circuits, so [response_body['content']] is only
    evaluated once ['content' in response_body] holds. *)
Definition extract_text (env : Env) (response_body : pyval) : outcome pyval :=
  has_content ← py_in env "content" response_body;
  if negb has_content then mret (PyStr no_text_found)
  else
    content ← py_getitem env "content" response_body;
    match content with
    | PyList (first_content :: _) =>
        match first_content with
        | PyDict items =>
            match dict_get "text" items with
            | Some text => mret text
            | None => mret (PyStr no_text_found)
            end
        | _ => mret (PyStr no_text_found)
        end
    | _ => mret (PyStr no_text_found)
    end.

(** app.py 39-53: the request is rebuilt on every attempt from the list
    object [messages] refers to at that moment. *)
Definition request_for (history : list Message) : InvokeArgs :=
  {| modelId := model_id;
     body := {| anthropic_version := "bedrock-2023-05-31";
                max_tokens := 1000;
                messages := history |};
     contentType := "application/json" |}.

(** The body of the [try] block for one attempt (app.py 37-67). *)
Definition attempt (env : Env) (client : Client) (messages : loc) (w : World)
  : outcome pyval :=
  response_body ←
    invoke_model env (invoked w) client (request_for (read_list messages w));
  extract_text env response_body.

(** The [ThrottlingException] handler (app.py 69-71): warn, then sleep
    [base_delay * (2 ** retry_count)] seconds. *)
Definition backoff (retry_count : Z) (w : World) : World :=
  let delay := (base_delay * 2 ^ retry_count)%Z in
  sleep (inject_Z delay) (emit (StWarning (throttle_warning delay)) w).

(** The [for retry_count in range(max_retries)] loop with its two
    handlers, and the [return] after the loop (app.py 36-76). *)
Fixpoint retry_loop (env : Env) (client : Client) (messages : loc)
    (retry_counts : list Z) (w : World) : pyval * World :=
  match retry_counts with
  | [] => (PyStr max_retries_message, w)
  | retry_count :: later =>
      let w1 := count_invocation w in
      match attempt env client messages w with
      | Returns text => (text, w1)
      | Raises e =>
          if exc_throttling e then
            retry_loop env client messages later (backoff retry_count w1)
          else
            (PyStr (error_message e), emit (StError (error_message e)) w1)
      end
  end.

Definition call_bedrock_api (env : Env) (client : Client) (messages : loc)
    (w : World) : pyval * World :=
  retry_loop env client messages (py_range max_retries) w.

(** ** One turn of the page (app.py 130-164) *)

(** [for char in v]: the values the loop variable takes. *)
Definition py_iter (env : Env) (v : pyval) : outcome (list pyval) :=
  match v with
  | PyStr s => Returns (map PyStr (PyStr.chars s))
  | PyList items => Returns items
  | PyDict items => Returns (map (fun kv => PyStr (fst kv)) items)
  | _ => Raises (type_error env (NotIterable v))
  end.

Definition cursor : string := "▌".

(** The body of the typing loop (app.py 157-160), once per element. *)
Fixpoint type_out (env : Env) (placeholder_text : string)
    (todo : list pyval) (w : World) : outcome unit * World :=
  match todo with
  | [] => (Returns tt, w)
  | PyStr char :: later =>
      let placeholder_text := placeholder_text +:+ char in
      type_out env placeholder_text later
        (sleep 0.01
           (emit (StPlaceholderMarkdown (PyStr (placeholder_text +:+ cursor))) w))
  | other :: _ => (Raises (type_error env (BadConcat other)), w)
  end.

(** app.py 156-161 *)
Definition typing_effect (env : Env) (full_response : pyval) (w : World)
  : outcome unit * World :=
  match py_iter env full_response with
  | Raises e => (Raises e, w)
  | Returns todo =>
      match type_out env "" todo w with
      | (Raises e, w1) => (Raises e, w1)
      | (Returns _, w1) =>
          (Returns tt, emit (StPlaceholderMarkdown full_response) w1)
      end
  end.

Definition connection_failed : string :=
  "AWS Bedrock 연결에 실패했습니다. 로컬 모드로 전환합니다.".

(** [local_chatbot_response(prompt)] as a step of the world: the call
    reads the clock once, while building [responses]. *)
Definition call_local_chatbot_response (env : Env) (prompt : string)
    (w : World) : string * World :=
  (local_chatbot_response (localtime env (clock_reads w)) prompt,
   count_clock_read w).

(** app.py 140-153: how [full_response] is obtained. *)
Definition respond (env : Env) (use_bedrock : bool) (prompt : string)
    (w : World) : outcome pyval * World :=
  if use_bedrock then
    match init_bedrock_client env w with
    | (Raises e, w1) => (Raises e, w1)
    | (Returns (Some bedrock_client), w1) =>
        let '(full_response, w2) :=
          call_bedrock_api env bedrock_client (session_messages w1)
            (emit (StSpinner "AI가 생각중입니다...") w1) in
        (Returns full_response, w2)
    | (Returns None, w1) =>
        let '(local, w2) := call_local_chatbot_response env prompt w1 in
        (Returns (PyStr (connection_failed +:+ PyStr.nl +:+ PyStr.nl +:+ local)),
         w2)
    end
  else
    let '(local, w1) :=
      call_local_chatbot_response env prompt
        (sleep 1 (emit (StSpinner "로컬 AI가 생각중입니다...") w)) in
    (Returns (PyStr local), w1).

(** app.py 131-138: the user's message is appended to the conversation
    and shown, and the assistant's bubble is opened. *)
Definition accept_prompt (prompt : string) (w : World) : World :=
  let w1 :=
    list_append (session_messages w)
      {| role := "user"; content := PyStr prompt |} w in
  let w2 := emit (StMarkdown (PyStr prompt)) (emit (StChatMessage "user") w1) in
  emit StEmpty (emit (StChatMessage "assistant") w2).

(** The body of [if prompt := st.chat_input(...)] (app.py 131-164), with
    [use_bedrock] the state of the sidebar checkbox. *)
Definition main_prompt (env : Env) (use_bedrock : bool) (prompt : string)
    (w : World) : outcome unit * World :=
  match respond env use_bedrock prompt (accept_prompt prompt w) with
  | (Raises e, w1) => (Raises e, w1)
  | (Returns full_response, w1) =>
      match typing_effect env full_response w1 with
      | (Raises e, w2) => (Raises e, w2)
      | (Returns _, w2) =>
          (Returns tt,
           list_append (session_messages w2)
             {| role := "assistant"; content := full_response |} w2)
      end
  end.

(** ** Vocabulary of the properties *)

(** [keyword] occurs somewhere in [input]. *)
Definition occurs_in (keyword input : string) : Prop :=
  exists before after, input = before +:+ keyword +:+ after.

(** What the service answers to attempt [k] (counting from 0) of a call
    of [call_bedrock_api env client messages] entered in [w]. *)
Definition answer (env : Env) (client : Client) (messages : loc)
    (w : World) (k : nat) : outcome pyval :=
  invoke_model env (invoked w + k) client (request_for (read_list messages w)).

(** The answer is a throttling error. *)
Definition is_throttled (o : outcome pyval) : bool :=
  match o with
  | Raises e => exc_throttling e
  | Returns _ => false
  end.

(** The world after the throttled attempts numbered [retry_counts]: each
    one is counted, warned about and slept after. *)
Definition after_throttled (retry_counts : list Z) (w : World) : World :=
  fold_left (fun w retry_count => backoff retry_count (count_invocation w))
    retry_counts w.

(** The sleeps of the throttled attempts numbered [retry_counts]. *)
Definition delays (retry_counts : list Z) : list Q :=
  map (fun retry_count => inject_Z (base_delay * 2 ^ retry_count)) retry_counts.

(** ** Sample worlds

    Concrete environments on which the properties are exercised. *)

(** A process that has just started: one empty list object, which
    [st.session_state.messages] refers to, and nothing done yet. *)
Definition fresh_world : World :=
  {| lists := {[ 0 := [] ]}; session_messages := 0;
     resource_cache := None; constructed := 0; invoked := 0;
     clock_reads := 0; slept := []; ui := [] |}.

Definition throttling_exception : PyExc :=
  {| exc_class := "botocore.errorfactory.ThrottlingException";
     exc_str := "An error occurred (ThrottlingException) when calling the InvokeModel operation: Too many requests";
     exc_throttling := true |}.

Definition access_denied : PyExc :=
  {| exc_class := "botocore.errorfactory.AccessDeniedException";
     exc_str := "An error occurred (AccessDeniedException) when calling the InvokeModel operation: not authorized";
     exc_throttling := false |}.

Definition missing_secret (key : string) : PyExc :=
  {| exc_class := "KeyError";
     exc_str := "'st.secrets has no key " +:+ key +:+ "'";
     exc_throttling := false |}.

(** An environment whose secrets and boto3 behave as given and whose
    service answers its n-th invocation with the n-th entry of [script],
    and with a throttling error once the script is used up. *)
Definition sample_env
    (secrets : string -> outcome string)
    (boto3 : nat -> outcome unit)
    (script : list (outcome pyval)) : Env :=
  {| st_secrets := secrets;
     boto3_client := fun n _ _ _ _ => boto3 n;
     invoke_model := fun n _ _ => nth n script (Raises throttling_exception);
     localtime := fun _ => {| tm_hour := 9; tm_min := 0 |};
     type_error_text := fun _ => "unsupported operand" |}.

Definition secrets_present (key : string) : outcome string :=
  Returns ("secret:" +:+ key).

Definition secrets_absent (key : string) : outcome string :=
  Raises (missing_secret key).

(** Credentials missing, so that every construction fails. *)
Definition unconfigured : Env :=
  sample_env secrets_absent (fun _ => Returns tt) [].

(** Credentials in place, and boto3 willing. *)
Definition configured : Env :=
  sample_env secrets_present (fun _ => Returns tt) [].

(** An environment in which the service follows [script]. *)
Definition scripted (script : list (outcome pyval)) : Env :=
  sample_env secrets_present (fun _ => Returns tt) script.

Definition hello_body : pyval :=
  PyDict [("content",
           PyList [PyDict [("type", PyStr "text"); ("text", PyStr "hello")]])].


(** Region and secret key in place, the access key missing. *)
Definition access_key_missing : Env :=
  sample_env
    (fun key => if String.eqb key "AWS_ACCESS_KEY_ID"
                then Raises (missing_secret key)
                else Returns ("secret:" +:+ key))
    (fun _ => Returns tt) [].

(** Secrets in place, boto3 refusing. *)
Definition boto3_refusing : Env :=
  sample_env secrets_present (fun _ => Raises access_denied) [].






(** ** The rest of the page script (app.py 116-130)

    [main] is re-run from the top on every interaction.  The parts of a
    run that touch the conversation are the reset button, the replay of
    the history and the handling of a prompt. *)

(** The address of a list object that does not exist yet. *)
Definition new_list (w : World) : loc := fresh (dom (lists w) : gset loc).

(** app.py 116-117, the button pressed: [st.session_state.messages = []]
    builds a new, empty list object and rebinds the name to it; the old
    object is not touched.  ([st.rerun()] then starts the next run.) *)
Definition reset_chat (w : World) : World :=
  {| lists := <[new_list w := []]> (lists w);
     session_messages := new_list w;
     resource_cache := resource_cache w; constructed := constructed w;
     invoked := invoked w; clock_reads := clock_reads w;
     slept := slept w; ui := ui w |}.

(** app.py 125-127: every stored message is drawn again, in order. *)
Fixpoint show_history (history : list Message) (w : World) : World :=
  match history with
  | [] => w
  | message :: later =>
      show_history later
        (emit (StMarkdown (content message))
           (emit (StChatMessage (role message)) w))
  end.

(** app.py 124-164 for one run: the history is drawn, and when
    [st.chat_input] hands over a prompt the turn is played.  [None] and
    the empty string are both false for the [if]. *)
Definition main_run (env : Env) (use_bedrock : bool) (prompt : option string)
    (w : World) : outcome unit * World :=
  let w1 := show_history (read_list (session_messages w) w) w in
  match prompt with
  | Some (String a rest) => main_prompt env use_bedrock (String a rest) w1
  | _ => (Returns tt, w1)
  end.

(** ** Further vocabulary *)

(** The bodies on which the extraction of app.py 62 raises: those that
    ['content' in response_body] cannot be asked of, and the strings and
    lists for which it holds, which cannot be subscripted by a [str]. *)
Definition breaks_extraction (response_body : pyval) : bool :=
  match response_body with
  | PyDict _ => false
  | PyStr s => PyStr.contains "content" s
  | PyList items =>
      existsb (fun x => match x with
                        | PyStr s => String.eqb s "content"
                        | _ => false
                        end) items
  | _ => true
  end.

(** A conversation of whole exchanges: user, assistant, user, ... *)
Fixpoint dialogue (history : list Message) : bool :=
  match history with
  | [] => true
  | question :: rest =>
      match rest with
      | [] => false
      | reply :: later =>
          String.eqb (role question) "user"
          && String.eqb (role reply) "assistant"
          && dialogue later
      end
  end.

(** Every byte is below 128. *)
Fixpoint ascii_only (s : string) : bool :=
  match s with
  | EmptyString => true
  | String a rest => (nat_of_ascii a <? 128)%nat && ascii_only rest
  end.


(** The page elements of one drawn message. *)
Definition drawn (message : Message) : list UiEvent :=
  [StChatMessage (role message); StMarkdown (content message)].

(** * Properties *)

(** ** Strings *)

Lemma append_assoc (a b c : string) : (a +:+ b) +:+ c = a +:+ b +:+ c.
Proof.
  induction a as [|x a IH]; [done|].
  change (String x ((a +:+ b) +:+ c) = String x (a +:+ b +:+ c)).
  by rewrite IH.
Qed.

Lemma append_empty_r (a : string) : a +:+ "" = a.
Proof.
  induction a as [|x a IH]; [done|].
  change (String x (a +:+ "") = String x a). by rewrite IH.
Qed.

Lemma prefix_iff (p s : string) :
  String.prefix p s = true <-> exists after, s = p +:+ after.
Proof.
  revert s. induction p as [|a p IH]; intros s; simpl.
  - split; [intros _; by exists s | by destruct s].
  - destruct s as [|b s]; simpl.
    + split; [done | intros [after H]; discriminate H].
    + destruct (ascii_dec a b) as [->|Hne].
      * rewrite IH. split; intros [after H]; exists after.
        -- by rewrite H.
        -- by injection H.
      * split; [done | intros [after H]; injection H; congruence].
Qed.

Lemma contains_unfold (needle haystack : string) :
  PyStr.contains needle haystack =
  String.prefix needle haystack
  || match haystack with
     | EmptyString => false
     | String _ rest => PyStr.contains needle rest
     end.
Proof. by destruct haystack. Qed.

Lemma contains_iff (needle haystack : string) :
  PyStr.contains needle haystack = true <-> occurs_in needle haystack.
Proof.
  unfold occurs_in. induction haystack as [|b s IH].
  - rewrite contains_unfold, orb_false_r, prefix_iff. split.
    + intros [after H]. by exists "", after.
    + intros ([|c before] & after & H); [by exists after | discriminate H].
  - rewrite contains_unfold, orb_true_iff, prefix_iff, IH. split.
    + intros [[after H]|(before & after & H)].
      * by exists "", after.
      * exists (String b before), after. simpl. by rewrite H.
    + intros ([|c before] & after & H).
      * left. by exists after.
      * right. exists before, after. simpl in H. by injection H.
Qed.

Lemma contains_false_iff (needle haystack : string) :
  PyStr.contains needle haystack = false <-> ~ occurs_in needle haystack.
Proof.
  rewrite <- contains_iff. destruct (PyStr.contains needle haystack); split;
    congruence.
Qed.

(** A byte that is not an ASCII letter equals a byte exactly when it
    equals that byte's lower-case form. *)
Lemma lower_ascii_caseless (a b : ascii) :
  PyStr.caseless (String a "") = true ->
  (a = PyStr.lower_ascii b <-> a = b).
Proof.
  unfold PyStr.caseless, PyStr.lower_ascii.
  rewrite andb_true_r, negb_true_iff, orb_false_iff.
  intros [Hup Hlow].
  destruct ((65 <=? nat_of_ascii b)%nat && (nat_of_ascii b <=? 90)%nat)
    eqn:Hb; [|done].
  apply andb_true_iff in Hb as [Hb1%Nat.leb_le Hb2%Nat.leb_le].
  split; intros ->; exfalso.
  - rewrite nat_ascii_embedding in Hlow by lia.
    apply andb_false_iff in Hlow as [H%Nat.leb_gt|H%Nat.leb_gt]; lia.
  - apply andb_false_iff in Hup as [H%Nat.leb_gt|H%Nat.leb_gt]; lia.
Qed.

Lemma prefix_lower (keyword s : string) :
  PyStr.caseless keyword = true ->
  String.prefix keyword (PyStr.lower s) = String.prefix keyword s.
Proof.
  revert s. induction keyword as [|a keyword IH]; intros s Hk.
  - by destruct s.
  - simpl in Hk. apply andb_true_iff in Hk as [Ha Hk].
    destruct s as [|b s]; [done|]. simpl.
    assert (Hab : a = PyStr.lower_ascii b <-> a = b).
    { apply lower_ascii_caseless. simpl. by rewrite Ha. }
    destruct (ascii_dec a (PyStr.lower_ascii b)) as [E|N],
             (ascii_dec a b) as [E'|N']; try tauto.
    by apply IH.
Qed.

Lemma contains_lower (keyword s : string) :
  PyStr.caseless keyword = true ->
  PyStr.contains keyword (PyStr.lower s) = PyStr.contains keyword s.
Proof.
  intros Hk. induction s as [|b s IH].
  - done.
  - change (PyStr.lower (String b s))
      with (String (PyStr.lower_ascii b) (PyStr.lower s)).
    rewrite (contains_unfold _ (String b s)), contains_unfold, IH.
    f_equal. by apply (prefix_lower keyword (String b s)).
Qed.

(** ** The local responder *)

Section FirstReply.
Variable items : list (string * string).
Variable user_input : string.

Lemma first_reply_none :
  (forall keyword reply, (keyword, reply) ∈ items ->
     PyStr.contains keyword user_input = false) ->
  first_reply items user_input = None.
Proof.
  induction items as [|[kw r] rest IH]; intros H; simpl; [done|].
  rewrite (H kw r) by apply list_elem_of_here.
  apply IH. intros keyword reply Hin. apply (H keyword reply).
  by apply list_elem_of_further.
Qed.

Lemma first_reply_first_match (i : nat) (keyword reply : string) :
  items !! i = Some (keyword, reply) ->
  PyStr.contains keyword user_input = true ->
  (forall j kw r, j < i -> items !! j = Some (kw, r) ->
     PyStr.contains kw user_input = false) ->
  first_reply items user_input = Some reply.
Proof.
  revert i. induction items as [|[kw r] rest IH]; intros i Hi Hhit Hbefore.
  - done.
  - destruct i as [|i]; simpl in *.
    + injection Hi as -> ->. by rewrite Hhit.
    + rewrite (Hbefore 0 kw r) by (done || lia).
      apply (IH i); [done..|].
      intros j kw' r' Hj Hlook. apply (Hbefore (S j) kw' r'); [lia|done].
Qed.

Lemma first_reply_lower :
  (forall keyword reply, (keyword, reply) ∈ items ->
     PyStr.caseless keyword = true) ->
  first_reply items (PyStr.lower user_input) = first_reply items user_input.
Proof.
  induction items as [|[kw r] rest IH]; intros H; simpl; [done|].
  rewrite contains_lower by (apply (H kw r), list_elem_of_here).
  rewrite IH; [done|].
  intros keyword reply Hin. apply (H keyword reply).
  by apply list_elem_of_further.
Qed.
End FirstReply.

Lemma responses_caseless (now : LocalTime) (keyword reply : string) :
  (keyword, reply) ∈ responses now -> PyStr.caseless keyword = true.
Proof.
  unfold responses. rewrite !elem_of_cons, elem_of_nil.
  intros [H|[H|[H|[H|[]]]]]; injection H as -> _; reflexivity.
Qed.

Lemma local_chatbot_response_lower (now : LocalTime) (user_input : string) :
  local_chatbot_response now (PyStr.lower user_input) =
  local_chatbot_response now user_input.
Proof.
  unfold local_chatbot_response.
  rewrite first_reply_lower; [done|]. apply responses_caseless.
Qed.

(** The reply as a cascade over the four keywords, in their order. *)
Lemma local_chatbot_response_cascade (now : LocalTime) (user_input : string) :
  local_chatbot_response now user_input =
  if PyStr.contains "안녕" user_input then greeting_reply
  else if PyStr.contains "이름" user_input then name_reply
  else if PyStr.contains "날씨" user_input then weather_reply
  else if PyStr.contains "시간" user_input then time_reply now
  else generic_fallback.
Proof.
  unfold local_chatbot_response, responses, first_reply.
  repeat match goal with
         | |- context [PyStr.contains ?k user_input] =>
             destruct (PyStr.contains k user_input)
         end; reflexivity.
Qed.

(** C7, as stated, fails: the reply to an input whose first keyword is
    "시간" embeds [time.strftime('%H:%M')], so the same input asked at
    09:00 and at 10:30 gets two different replies. *)
Lemma local_chatbot_response_depends_on_clock :
  local_chatbot_response {| tm_hour := 9; tm_min := 0 |} "지금 시간 알려줘"
  <> local_chatbot_response {| tm_hour := 10; tm_min := 30 |} "지금 시간 알려줘".
Proof. vm_compute. discriminate. Qed.

(** C7, amended: the reply is a function of the input and of the clock's
    hour and minute only.  Two calls with the same input return the same
    string whenever the input's first keyword is not "시간" (one of "안녕",
    "이름", "날씨" occurs in it, or "시간" does not), at any two times; and
    for every input whenever the clock formats to the same HH:MM.  The
    keywords are tried in the same order at all times. *)
Theorem local_chatbot_response_deterministic
    (user_input : string) (t1 t2 : LocalTime) :
  (PyStr.contains "안녕" user_input
   || PyStr.contains "이름" user_input
   || PyStr.contains "날씨" user_input
   || negb (PyStr.contains "시간" user_input) = true ->
   local_chatbot_response t1 user_input = local_chatbot_response t2 user_input)
  /\ (strftime_HM t1 = strftime_HM t2 ->
      local_chatbot_response t1 user_input = local_chatbot_response t2 user_input)
  /\ map fst (responses t1) = map fst (responses t2)
  /\ map fst (responses t1) = ["안녕"; "이름"; "날씨"; "시간"].
Proof.
  rewrite !local_chatbot_response_cascade. repeat split.
  - intros H.
    destruct (PyStr.contains "안녕" user_input); [done|].
    destruct (PyStr.contains "이름" user_input); [done|].
    destruct (PyStr.contains "날씨" user_input); [done|].
    destruct (PyStr.contains "시간" user_input); [discriminate H|done].
  - intros H. unfold time_reply. by rewrite H.
Qed.

Lemma local_chatbot_response_deterministic_witness :
  local_chatbot_response {| tm_hour := 9; tm_min := 0 |} "오늘 날씨 어때"
  = local_chatbot_response {| tm_hour := 10; tm_min := 30 |} "오늘 날씨 어때"
  /\ local_chatbot_response {| tm_hour := 9; tm_min := 0 |} "지금 시간 알려줘"
     = local_chatbot_response {| tm_hour := 9; tm_min := 0 |} "지금 시간 알려줘".
Proof.
  split.
  - apply (proj1 (local_chatbot_response_deterministic "오늘 날씨 어때"
             {| tm_hour := 9; tm_min := 0 |} {| tm_hour := 10; tm_min := 30 |})).
    reflexivity.
  - apply (proj1 (proj2 (local_chatbot_response_deterministic "지금 시간 알려줘"
             {| tm_hour := 9; tm_min := 0 |} {| tm_hour := 9; tm_min := 0 |}))).
    reflexivity.
Defined.

(** C8, as stated, fails in its example: an input in which "날씨" occurs
    does not get the weather reply when "안녕", which comes first in the
    mapping, occurs in it as well. *)
Lemma local_chatbot_response_earlier_keyword_wins :
  PyStr.contains "날씨" "안녕, 오늘 날씨 어때" = true
  /\ local_chatbot_response {| tm_hour := 9; tm_min := 0 |} "안녕, 오늘 날씨 어때"
     = greeting_reply
  /\ local_chatbot_response {| tm_hour := 9; tm_min := 0 |} "안녕, 오늘 날씨 어때"
     <> weather_reply.
Proof. vm_compute. repeat split. discriminate. Qed.

(** C8, amended: the reply is that of the first keyword, in the order of
    the mapping, that occurs anywhere in the input; the generic fallback
    when none occurs.  Whether a keyword occurs does not depend on where
    it stands nor on the letter case of the input (no keyword has a cased
    character).  An input in which "날씨" occurs and neither "안녕" nor
    "이름" does, such as "오늘 날씨 어때", gets the weather reply; "xyz" gets
    the generic fallback. *)
Theorem local_chatbot_response_first_keyword
    (now : LocalTime) (user_input : string) :
  (forall i keyword reply,
      responses now !! i = Some (keyword, reply) ->
      PyStr.contains keyword user_input = true ->
      (forall j kw r, j < i -> responses now !! j = Some (kw, r) ->
         PyStr.contains kw user_input = false) ->
      local_chatbot_response now user_input = reply)
  /\ ((forall keyword reply, (keyword, reply) ∈ responses now ->
         PyStr.contains keyword user_input = false) ->
      local_chatbot_response now user_input = generic_fallback)
  /\ (forall keyword before after,
        PyStr.contains keyword (before +:+ keyword +:+ after) = true)
  /\ (forall other, PyStr.lower other = PyStr.lower user_input ->
        local_chatbot_response now other = local_chatbot_response now user_input)
  /\ (PyStr.contains "날씨" user_input = true ->
      PyStr.contains "안녕" user_input = false ->
      PyStr.contains "이름" user_input = false ->
      local_chatbot_response now user_input = weather_reply)
  /\ local_chatbot_response now "오늘 날씨 어때" = weather_reply
  /\ local_chatbot_response now "xyz" = generic_fallback.
Proof.
  split; [|split; [|split; [|split; [|split; [|split]]]]].
  - intros i keyword reply Hi Hhit Hbefore. unfold local_chatbot_response.
    by rewrite (first_reply_first_match _ _ i keyword reply).
  - intros Hnone. unfold local_chatbot_response.
    by rewrite first_reply_none.
  - intros keyword before after. apply contains_iff. by exists before, after.
  - intros other Heq.
    rewrite <- (local_chatbot_response_lower now other), Heq.
    apply local_chatbot_response_lower.
  - intros Hw Hg Hn. rewrite local_chatbot_response_cascade.
    by rewrite Hg, Hn, Hw.
  - reflexivity.
  - reflexivity.
Qed.

Lemma local_chatbot_response_first_keyword_witness :
  let now := {| tm_hour := 9; tm_min := 0 |} in
  local_chatbot_response now "지금 시간 알려줘" = time_reply now
  /\ local_chatbot_response now "hello" = generic_fallback
  /\ local_chatbot_response now "XYZ" = local_chatbot_response now "xyz"
  /\ local_chatbot_response now "내일 날씨와 시간" = weather_reply.
Proof.
  cbv zeta. split; [|split; [|split]].
  - apply (proj1 (local_chatbot_response_first_keyword
                    {| tm_hour := 9; tm_min := 0 |} "지금 시간 알려줘")
             3 "시간"); [reflexivity..|].
    intros j kw r Hj Hlook.
    destruct j as [|[|[|j]]]; [injection Hlook as <- _; reflexivity..|lia].
  - apply (proj1 (proj2 (local_chatbot_response_first_keyword
                           {| tm_hour := 9; tm_min := 0 |} "hello"))).
    intros keyword reply. unfold responses.
    rewrite !elem_of_cons, elem_of_nil.
    intros [H|[H|[H|[H|[]]]]]; injection H as -> _; reflexivity.
  - apply (proj1 (proj2 (proj2 (proj2 (local_chatbot_response_first_keyword
                                          {| tm_hour := 9; tm_min := 0 |} "xyz"))))).
    reflexivity.
  - apply (proj1 (proj2 (proj2 (proj2 (proj2
             (local_chatbot_response_first_keyword
                {| tm_hour := 9; tm_min := 0 |} "내일 날씨와 시간"))))));
      reflexivity.
Defined.

(** ** Frame equations

    What each primitive effect does to each field of the world.  They are
    used as rewrite rules, so that a long chain of effects is never
    unfolded as a whole. *)

Create Rewrite HintDb world.

Lemma lists_emit (e : UiEvent) (w : World) : lists (emit e w) = lists w. Proof. reflexivity. Qed.
Lemma session_messages_emit (e : UiEvent) (w : World) :
  session_messages (emit e w) = session_messages w. Proof. reflexivity. Qed.
Lemma resource_cache_emit (e : UiEvent) (w : World) :
  resource_cache (emit e w) = resource_cache w. Proof. reflexivity. Qed.
Lemma constructed_emit (e : UiEvent) (w : World) :
  constructed (emit e w) = constructed w. Proof. reflexivity. Qed.
Lemma invoked_emit (e : UiEvent) (w : World) :
  invoked (emit e w) = invoked w. Proof. reflexivity. Qed.
Lemma clock_reads_emit (e : UiEvent) (w : World) :
  clock_reads (emit e w) = clock_reads w. Proof. reflexivity. Qed.
Lemma slept_emit (e : UiEvent) (w : World) : slept (emit e w) = slept w. Proof. reflexivity. Qed.
Lemma ui_emit (e : UiEvent) (w : World) : ui (emit e w) = ui w ++ [e]. Proof. reflexivity. Qed.
Lemma lists_sleep (seconds : Q) (w : World) :
  lists (sleep seconds w) = lists w. Proof. reflexivity. Qed.
Lemma session_messages_sleep (seconds : Q) (w : World) :
  session_messages (sleep seconds w) = session_messages w. Proof. reflexivity. Qed.
Lemma resource_cache_sleep (seconds : Q) (w : World) :
  resource_cache (sleep seconds w) = resource_cache w. Proof. reflexivity. Qed.
Lemma constructed_sleep (seconds : Q) (w : World) :
  constructed (sleep seconds w) = constructed w. Proof. reflexivity. Qed.
Lemma invoked_sleep (seconds : Q) (w : World) :
  invoked (sleep seconds w) = invoked w. Proof. reflexivity. Qed.
Lemma clock_reads_sleep (seconds : Q) (w : World) :
  clock_reads (sleep seconds w) = clock_reads w. Proof. reflexivity. Qed.
Lemma slept_sleep (seconds : Q) (w : World) :
  slept (sleep seconds w) = slept w ++ [seconds]. Proof. reflexivity. Qed.
Lemma ui_sleep (seconds : Q) (w : World) : ui (sleep seconds w) = ui w. Proof. reflexivity. Qed.
Lemma lists_count_construction (w : World) :
  lists (count_construction w) = lists w. Proof. reflexivity. Qed.
Lemma session_messages_count_construction (w : World) :
  session_messages (count_construction w) = session_messages w. Proof. reflexivity. Qed.
Lemma resource_cache_count_construction (w : World) :
  resource_cache (count_construction w) = resource_cache w. Proof. reflexivity. Qed.
Lemma constructed_count_construction (w : World) :
  constructed (count_construction w) = S (constructed w). Proof. reflexivity. Qed.
Lemma invoked_count_construction (w : World) :
  invoked (count_construction w) = invoked w. Proof. reflexivity. Qed.
Lemma clock_reads_count_construction (w : World) :
  clock_reads (count_construction w) = clock_reads w. Proof. reflexivity. Qed.
Lemma slept_count_construction (w : World) :
  slept (count_construction w) = slept w. Proof. reflexivity. Qed.
Lemma ui_count_construction (w : World) : ui (count_construction w) = ui w. Proof. reflexivity. Qed.
Lemma lists_count_invocation (w : World) :
  lists (count_invocation w) = lists w. Proof. reflexivity. Qed.
Lemma session_messages_count_invocation (w : World) :
  session_messages (count_invocation w) = session_messages w. Proof. reflexivity. Qed.
Lemma resource_cache_count_invocation (w : World) :
  resource_cache (count_invocation w) = resource_cache w. Proof. reflexivity. Qed.
Lemma constructed_count_invocation (w : World) :
  constructed (count_invocation w) = constructed w. Proof. reflexivity. Qed.
Lemma invoked_count_invocation (w : World) :
  invoked (count_invocation w) = S (invoked w). Proof. reflexivity. Qed.
Lemma clock_reads_count_invocation (w : World) :
  clock_reads (count_invocation w) = clock_reads w. Proof. reflexivity. Qed.
Lemma slept_count_invocation (w : World) :
  slept (count_invocation w) = slept w. Proof. reflexivity. Qed.
Lemma ui_count_invocation (w : World) : ui (count_invocation w) = ui w. Proof. reflexivity. Qed.
Lemma lists_count_clock_read (w : World) :
  lists (count_clock_read w) = lists w. Proof. reflexivity. Qed.
Lemma session_messages_count_clock_read (w : World) :
  session_messages (count_clock_read w) = session_messages w. Proof. reflexivity. Qed.
Lemma resource_cache_count_clock_read (w : World) :
  resource_cache (count_clock_read w) = resource_cache w. Proof. reflexivity. Qed.
Lemma constructed_count_clock_read (w : World) :
  constructed (count_clock_read w) = constructed w. Proof. reflexivity. Qed.
Lemma invoked_count_clock_read (w : World) :
  invoked (count_clock_read w) = invoked w. Proof. reflexivity. Qed.
Lemma clock_reads_count_clock_read (w : World) :
  clock_reads (count_clock_read w) = S (clock_reads w). Proof. reflexivity. Qed.
Lemma slept_count_clock_read (w : World) :
  slept (count_clock_read w) = slept w. Proof. reflexivity. Qed.
Lemma ui_count_clock_read (w : World) : ui (count_clock_read w) = ui w. Proof. reflexivity. Qed.
Lemma lists_store_cache (entry : CacheEntry) (w : World) :
  lists (store_cache entry w) = lists w. Proof. reflexivity. Qed.
Lemma session_messages_store_cache (entry : CacheEntry) (w : World) :
  session_messages (store_cache entry w) = session_messages w. Proof. reflexivity. Qed.
Lemma resource_cache_store_cache (entry : CacheEntry) (w : World) :
  resource_cache (store_cache entry w) = Some entry. Proof. reflexivity. Qed.
Lemma constructed_store_cache (entry : CacheEntry) (w : World) :
  constructed (store_cache entry w) = constructed w. Proof. reflexivity. Qed.
Lemma invoked_store_cache (entry : CacheEntry) (w : World) :
  invoked (store_cache entry w) = invoked w. Proof. reflexivity. Qed.
Lemma clock_reads_store_cache (entry : CacheEntry) (w : World) :
  clock_reads (store_cache entry w) = clock_reads w. Proof. reflexivity. Qed.
Lemma slept_store_cache (entry : CacheEntry) (w : World) :
  slept (store_cache entry w) = slept w. Proof. reflexivity. Qed.
Lemma ui_store_cache (entry : CacheEntry) (w : World) :
  ui (store_cache entry w) = ui w. Proof. reflexivity. Qed.
Lemma lists_list_append (l : loc) (m : Message) (w : World) :
  lists (list_append l m w) = alter (fun ms => ms ++ [m]) l (lists w). Proof. reflexivity. Qed.
Lemma session_messages_list_append (l : loc) (m : Message) (w : World) :
  session_messages (list_append l m w) = session_messages w. Proof. reflexivity. Qed.
Lemma resource_cache_list_append (l : loc) (m : Message) (w : World) :
  resource_cache (list_append l m w) = resource_cache w. Proof. reflexivity. Qed.
Lemma constructed_list_append (l : loc) (m : Message) (w : World) :
  constructed (list_append l m w) = constructed w. Proof. reflexivity. Qed.
Lemma invoked_list_append (l : loc) (m : Message) (w : World) :
  invoked (list_append l m w) = invoked w. Proof. reflexivity. Qed.
Lemma clock_reads_list_append (l : loc) (m : Message) (w : World) :
  clock_reads (list_append l m w) = clock_reads w. Proof. reflexivity. Qed.
Lemma slept_list_append (l : loc) (m : Message) (w : World) :
  slept (list_append l m w) = slept w. Proof. reflexivity. Qed.
Lemma ui_list_append (l : loc) (m : Message) (w : World) :
  ui (list_append l m w) = ui w. Proof. reflexivity. Qed.

Hint Rewrite
  lists_emit session_messages_emit resource_cache_emit constructed_emit
  invoked_emit clock_reads_emit slept_emit ui_emit
  lists_sleep session_messages_sleep resource_cache_sleep constructed_sleep
  invoked_sleep clock_reads_sleep slept_sleep ui_sleep
  lists_count_construction session_messages_count_construction resource_cache_count_construction constructed_count_construction
  invoked_count_construction clock_reads_count_construction slept_count_construction ui_count_construction
  lists_count_invocation session_messages_count_invocation resource_cache_count_invocation constructed_count_invocation
  invoked_count_invocation clock_reads_count_invocation slept_count_invocation ui_count_invocation
  lists_count_clock_read session_messages_count_clock_read resource_cache_count_clock_read constructed_count_clock_read
  invoked_count_clock_read clock_reads_count_clock_read slept_count_clock_read ui_count_clock_read
  lists_store_cache session_messages_store_cache resource_cache_store_cache constructed_store_cache
  invoked_store_cache clock_reads_store_cache slept_store_cache ui_store_cache
  lists_list_append session_messages_list_append resource_cache_list_append constructed_list_append
  invoked_list_append clock_reads_list_append slept_list_append ui_list_append
  : world.

(** ** The retrying invoker *)

(** What the extraction can raise is one of the interpreter's own errors,
    never a throttling error. *)
Lemma extract_text_raises (env : Env) (response_body : pyval) (e : PyExc) :
  extract_text env response_body = Raises e -> exc_throttling e = false.
Proof.
  unfold extract_text, py_in, py_getitem.
  destruct response_body; simpl; try (intros [= <-]; reflexivity).
  all: repeat match goal with
         | |- context [match ?x with _ => _ end] => destruct x; simpl
         end; try discriminate; try (intros [= <-]; reflexivity).
Qed.

(** A JSON object always yields a text or the fixed string. *)
Lemma extract_text_object (env : Env) (items : list (string * pyval)) :
  extract_text env (PyDict items) =
  Returns
    match dict_get "content" items with
    | Some (PyList (PyDict fields :: _)) =>
        match dict_get "text" fields with
        | Some text => text
        | None => PyStr no_text_found
        end
    | _ => PyStr no_text_found
    end.
Proof.
  unfold extract_text, py_in, py_getitem.
  destruct (dict_get "content" items) as [content|]; simpl; [|done].
  destruct content as [| | | | |[|first rest]|]; try done.
  destruct first; try done.
  by destruct (dict_get "text" _).
Qed.


Section Invoker.
Variable env : Env.
Variable client : Client.
Variable messages : loc.

Lemma after_throttled_invoked ks w :
  invoked (after_throttled ks w) = invoked w + length ks.
Proof.
  revert w. induction ks as [|k ks IH]; intros w; unfold after_throttled in *; simpl; [lia|].
  rewrite IH. simpl. lia.
Qed.

Lemma after_throttled_slept ks w :
  slept (after_throttled ks w) = slept w ++ delays ks.
Proof.
  revert w. induction ks as [|k ks IH]; intros w; unfold after_throttled in *; simpl.
  - by rewrite app_nil_r.
  - rewrite IH. simpl.
    by rewrite <- app_assoc.
Qed.

Lemma after_throttled_ui ks w :
  ui (after_throttled ks w) =
  ui w ++ map (fun k => StWarning (throttle_warning (base_delay * 2 ^ k))) ks.
Proof.
  revert w. induction ks as [|k ks IH]; intros w; unfold after_throttled in *; simpl.
  - by rewrite app_nil_r.
  - rewrite IH. simpl.
    by rewrite <- app_assoc.
Qed.

Lemma after_throttled_frame ks w :
  lists (after_throttled ks w) = lists w
  /\ session_messages (after_throttled ks w) = session_messages w
  /\ resource_cache (after_throttled ks w) = resource_cache w
  /\ constructed (after_throttled ks w) = constructed w
  /\ clock_reads (after_throttled ks w) = clock_reads w.
Proof.
  revert w. induction ks as [|k ks IH]; intros w; unfold after_throttled in *; simpl; [done|].
  destruct (IH (backoff k (count_invocation w))) as (-> & -> & -> & -> & ->).
  done.
Qed.

Lemma attempt_throttled w :
  is_throttled
    (invoke_model env (invoked w) client
       (request_for (read_list messages w))) = true ->
  exists e, attempt env client messages w = Raises e
            /\ exc_throttling e = true.
Proof.
  unfold attempt.
  destruct (invoke_model _ _ _ _) as [response_body|e]; simpl; [done|].
  intros H. by exists e.
Qed.

(** As long as the service throttles, the loop goes round. *)
Lemma retry_loop_throttled (ks later : list Z) (w : World) :
  (forall i, i < length ks ->
     is_throttled
       (invoke_model env (invoked w + i) client
          (request_for (read_list messages w))) = true) ->
  retry_loop env client messages (ks ++ later) w =
  retry_loop env client messages later (after_throttled ks w).
Proof.
  revert w. induction ks as [|k ks IH]; intros w H; [done|].
  change (retry_loop env client messages ((k :: ks) ++ later) w)
    with (match attempt env client messages w with
          | Returns text => (text, count_invocation w)
          | Raises e =>
              if exc_throttling e
              then retry_loop env client messages (ks ++ later)
                     (backoff k (count_invocation w))
              else (PyStr (error_message e),
                    emit (StError (error_message e)) (count_invocation w))
          end).
  destruct (attempt_throttled w) as (e & -> & ->).
  { specialize (H 0). rewrite Nat.add_0_r in H. apply H. simpl. lia. }
  rewrite IH; [done|].
  intros i Hi. specialize (H (S i)).
  change (invoked (backoff k (count_invocation w))) with (S (invoked w)).
  change (read_list messages (backoff k (count_invocation w)))
    with (read_list messages w).
  replace (S (invoked w) + i) with (invoked w + S i) by lia.
  apply H. simpl. lia.
Qed.

(** The attempt on which the service answers ends the loop. *)
Lemma retry_loop_answered (k : Z) (later : list Z) (w : World)
    (response_body : pyval) :
  invoke_model env (invoked w) client (request_for (read_list messages w))
    = Returns response_body ->
  retry_loop env client messages (k :: later) w =
  match extract_text env response_body with
  | Returns text => (text, count_invocation w)
  | Raises e =>
      (PyStr (error_message e),
       emit (StError (error_message e)) (count_invocation w))
  end.
Proof.
  intros H. simpl. unfold attempt. rewrite H. simpl.
  destruct (extract_text env response_body) as [text|e] eqn:E; [done|].
  by rewrite (extract_text_raises env response_body e).
Qed.

Lemma read_list_after_throttled ks w :
  read_list messages (after_throttled ks w) = read_list messages w.
Proof.
  unfold read_list. by destruct (after_throttled_frame ks w) as (-> & _).
Qed.

Local Abbreviation answer := (answer env client messages).

(** The loop's result when the first [length ks] attempts are throttled
    and the next one is answered or fails otherwise. *)
Lemma retry_loop_settled (ks : list Z) (k : Z) (later : list Z) (w : World) :
  (forall i, i < length ks -> is_throttled (answer w i) = true) ->
  is_throttled (answer w (length ks)) = false ->
  retry_loop env client messages (ks ++ k :: later) w =
  let w1 := count_invocation (after_throttled ks w) in
  match answer w (length ks) ≫= extract_text env with
  | Returns text => (text, w1)
  | Raises e => (PyStr (error_message e), emit (StError (error_message e)) w1)
  end.
Proof.
  intros Hthrottled Hsettled.
  rewrite retry_loop_throttled by exact Hthrottled.
  simpl. unfold attempt, answer in *.
  rewrite after_throttled_invoked, read_list_after_throttled.
  destruct (invoke_model _ _ _ _) as [response_body|e]; simpl in *.
  - destruct (extract_text env response_body) as [text|e] eqn:E; [done|].
    by rewrite (extract_text_raises env response_body e).
  - by rewrite Hsettled.
Qed.

(** C1: throttled on attempts 0, 1, 2 and 3 and answered on attempt 4,
    the call sleeps 1, 2, 4 and 8 seconds in that order, has invoked the
    service 5 times, and returns what the extraction gives for the fifth
    response: its text (or, for a body that is not even a JSON object
    and breaks the extraction, the error message). *)
Theorem call_bedrock_api_answered_on_fifth_attempt
    (w : World) (response_body : pyval) :
  (forall k, k < 4 -> is_throttled (answer w k) = true) ->
  answer w 4 = Returns response_body ->
  let result := call_bedrock_api env client messages w in
  slept (snd result) = slept w ++ [1; 2; 4; 8]%Q
  /\ invoked (snd result) = invoked w + 5
  /\ match extract_text env response_body with
     | Returns text => fst result = text
     | Raises e => fst result = PyStr (error_message e)
     end.
Proof.
  intros Hthrottled Hanswer result. subst result. unfold call_bedrock_api.
  change (py_range max_retries) with ([0; 1; 2; 3] ++ 4 :: [])%Z.
  rewrite retry_loop_settled;
    [|exact Hthrottled|cbn [length]; by rewrite Hanswer].
  cbn [length]. rewrite Hanswer. cbv zeta. cbn [mbind outcome_bind].
  destruct (extract_text env response_body) as [text|e]; cbn [fst snd];
    autorewrite with world;
    rewrite after_throttled_slept, after_throttled_invoked; cbn [length];
    (split; [reflexivity|split; [lia|reflexivity]]).
Qed.


(** C3: a non-throttling error on attempt [k], after [k] throttled
    attempts, ends the call at once: the result is the message built
    from the error's [str] and type, the service has been invoked [k + 1]
    times, and the only sleeps are those of the [k] throttled attempts;
    none follows the failure.  On the first attempt: one invocation and
    no sleep at all. *)
Theorem call_bedrock_api_other_error (w : World) (k : nat) (e : PyExc) :
  k < 5 ->
  (forall j, j < k -> is_throttled (answer w j) = true) ->
  answer w k = Raises e ->
  exc_throttling e = false ->
  let result := call_bedrock_api env client messages w in
  fst result = PyStr (error_message e)
  /\ occurs_in (exc_str e) (error_message e)
  /\ occurs_in ("<class '" +:+ exc_class e +:+ "'>") (error_message e)
  /\ invoked (snd result) = invoked w + k + 1
  /\ slept (snd result) = slept w ++ delays (py_range (Z.of_nat k))
  /\ ui (snd result) =
     ui (after_throttled (py_range (Z.of_nat k)) w)
     ++ [StError (error_message e)]
  /\ (k = 0 -> invoked (snd result) = invoked w + 1
               /\ slept (snd result) = slept w).
Proof.
  intros Hk Hthrottled Hraise He result. subst result.
  unfold call_bedrock_api.
  assert (Hsplit : exists later,
             py_range max_retries
             = py_range (Z.of_nat k) ++ Z.of_nat k :: later
             /\ length (py_range (Z.of_nat k)) = k).
  { destruct k as [|[|[|[|[|k]]]]]; [eexists; split; reflexivity..|lia]. }
  destruct Hsplit as (later & -> & Hlen).
  rewrite retry_loop_settled; rewrite Hlen;
    [|exact Hthrottled|rewrite Hraise; exact He].
  rewrite Hraise. cbv zeta. cbn [mbind outcome_bind fst snd].
  autorewrite with world.
  rewrite after_throttled_slept, after_throttled_invoked, Hlen.
  split; [reflexivity|]. split.
  { exists "오류가 발생했습니다: ",
      (PyStr.nl +:+ "응답 타입: " +:+ "<class '" +:+ exc_class e +:+ "'>").
    reflexivity. }
  split.
  { exists ("오류가 발생했습니다: " +:+ exc_str e +:+ PyStr.nl +:+ "응답 타입: "),
      "".
    unfold error_message. rewrite append_empty_r.
    by rewrite <- !append_assoc. }
  split; [lia|]. split; [reflexivity|]. split; [reflexivity|].
  intros ->. split; [lia|]. apply app_nil_r.
Qed.

Lemma retry_loop_cons (k : Z) (later : list Z) (w : World) :
  retry_loop env client messages (k :: later) w =
  match attempt env client messages w with
  | Returns text => (text, count_invocation w)
  | Raises e =>
      if exc_throttling e
      then retry_loop env client messages later
             (backoff k (count_invocation w))
      else (PyStr (error_message e),
            emit (StError (error_message e)) (count_invocation w))
  end.
Proof. reflexivity. Qed.

Lemma answer_first (w : World) :
  answer w 0 =
  invoke_model env (invoked w) client (request_for (read_list messages w)).
Proof. unfold answer. by rewrite Nat.add_0_r. Qed.

(** An answer on the first attempt: one invocation, nothing else. *)
Lemma call_bedrock_api_answered_at_once (w : World)
    (response_body text : pyval) :
  answer w 0 = Returns response_body ->
  extract_text env response_body = Returns text ->
  call_bedrock_api env client messages w = (text, count_invocation w).
Proof.
  rewrite answer_first. intros Hanswer Htext. unfold call_bedrock_api.
  change (py_range max_retries) with (0 :: [1; 2; 3; 4])%Z.
  by rewrite (retry_loop_answered _ _ _ _ Hanswer), Htext.
Qed.



(** The loop only counts, warns and sleeps. *)
Lemma retry_loop_frame (ks : list Z) (w : World) :
  let w' := snd (retry_loop env client messages ks w) in
  lists w' = lists w
  /\ session_messages w' = session_messages w
  /\ resource_cache w' = resource_cache w
  /\ constructed w' = constructed w
  /\ clock_reads w' = clock_reads w.
Proof.
  revert w. induction ks as [|k ks IH]; intros w; [done|].
  cbv zeta. rewrite retry_loop_cons.
  destruct (attempt env client messages w) as [text|e]; [done|].
  destruct (exc_throttling e); [|done].
  destruct (IH (backoff k (count_invocation w))) as (-> & -> & -> & -> & ->).
  done.
Qed.

End Invoker.

(** ** The client initialiser *)

Lemma emit_all_app (es : list UiEvent) (w : World) :
  lists (emit_all es w) = lists w
  /\ session_messages (emit_all es w) = session_messages w
  /\ resource_cache (emit_all es w) = resource_cache w
  /\ constructed (emit_all es w) = constructed w
  /\ ui (emit_all es w) = ui w ++ es.
Proof.
  revert w. induction es as [|e es IH]; intros w; unfold emit_all in *.
  - cbn [fold_left]. by rewrite app_nil_r.
  - cbn [fold_left]. destruct (IH (emit e w)) as (-> & -> & -> & -> & ->).
    autorewrite with world. by rewrite <- app_assoc.
Qed.

Section Initialiser.
Variable env : Env.

(** Constructing touches nothing but the count of constructions, which
    goes up by at most one. *)
Lemma construct_client_frame (w : World) :
  let w1 := snd (construct_client env w) in
  lists w1 = lists w
  /\ session_messages w1 = session_messages w
  /\ resource_cache w1 = resource_cache w
  /\ ui w1 = ui w
  /\ constructed w <= constructed w1 <= constructed w + 1.
Proof.
  unfold construct_client.
  destruct (_ ≫= _) as [[[region access_key] secret_key]|e]; cbn [snd].
  - destruct (boto3_client _ _ _ _ _ _); cbn [snd];
      autorewrite with world; repeat split; lia.
  - repeat split; lia.
Qed.

(** The function under the decorator always returns. *)
Lemma init_bedrock_client_body_returns (w : World) :
  exists handle,
    fst (init_bedrock_client_body env w) = Returns handle
    /\ (forall e, fst (construct_client env w) = Raises e ->
          handle = None
          /\ ui (snd (init_bedrock_client_body env w))
             = ui w ++ [StError (init_failed_message e)]).
Proof.
  unfold init_bedrock_client_body.
  pose proof (construct_client_frame w) as (_ & _ & _ & Hui & _).
  destruct (construct_client env w) as [[client|e] w1]; cbn [fst snd] in *.
  - exists (Some client). split; [done|]. intros e [=].
  - exists None. split; [done|]. intros e' [= <-].
    autorewrite with world. by rewrite Hui.
Qed.

Lemma init_bedrock_client_body_frame (w : World) :
  let w1 := snd (init_bedrock_client_body env w) in
  lists w1 = lists w
  /\ session_messages w1 = session_messages w
  /\ resource_cache w1 = resource_cache w
  /\ constructed w <= constructed w1 <= constructed w + 1.
Proof.
  unfold init_bedrock_client_body.
  pose proof (construct_client_frame w) as (Hl & Hs & Hc & _ & Hn).
  destruct (construct_client env w) as [[client|e] w1]; cbn [fst snd] in *;
    autorewrite with world; done.
Qed.

(** A hit returns the stored value and constructs nothing. *)
Lemma init_bedrock_client_hit (w : World)
    (handle : option Client) (elements : list UiEvent) :
  resource_cache w = Some (handle, elements) ->
  init_bedrock_client env w = (Returns handle, emit_all elements w).
Proof.
  intros H. unfold init_bedrock_client, cache_resource. by rewrite H.
Qed.

(** A miss runs the function and stores what it returned, a handle or
    [None] alike. *)
Lemma init_bedrock_client_miss (w : World) :
  resource_cache w = None ->
  exists handle w1,
    init_bedrock_client_body env w = (Returns handle, w1)
    /\ init_bedrock_client env w
       = (Returns handle,
          store_cache (handle, drop (length (ui w)) (ui w1)) w1).
Proof.
  intros H. unfold init_bedrock_client, cache_resource. rewrite H.
  destruct (init_bedrock_client_body_returns w) as (handle & Hret & _).
  destruct (init_bedrock_client_body env w) as [r w1]; cbn [fst] in Hret.
  subst r. by exists handle, w1.
Qed.

Lemma init_bedrock_client_frame (w : World) :
  let w1 := snd (init_bedrock_client env w) in
  lists w1 = lists w
  /\ session_messages w1 = session_messages w
  /\ constructed w <= constructed w1 <= constructed w + 1.
Proof.
  destruct (resource_cache w) as [[handle elements]|] eqn:Hcache.
  - rewrite (init_bedrock_client_hit w handle elements Hcache). cbn [snd].
    destruct (emit_all_app elements w) as (-> & -> & _ & -> & _).
    repeat split; lia.
  - destruct (init_bedrock_client_miss w Hcache) as (handle & w1 & Hb & ->).
    pose proof (init_bedrock_client_body_frame w) as Hf.
    rewrite Hb in Hf. cbn [snd] in *. autorewrite with world.
    destruct Hf as (-> & -> & _ & Hn). done.
Qed.

(** After any call the cache holds the value that call returned. *)
Lemma init_bedrock_client_fills_cache (w : World) :
  exists handle elements,
    fst (init_bedrock_client env w) = Returns handle
    /\ resource_cache (snd (init_bedrock_client env w))
       = Some (handle, elements).
Proof.
  destruct (resource_cache w) as [[handle elements]|] eqn:Hcache.
  - rewrite (init_bedrock_client_hit w handle elements Hcache).
    exists handle, elements. cbn [fst snd].
    by destruct (emit_all_app elements w) as (_ & _ & -> & _).
  - destruct (init_bedrock_client_miss w Hcache) as (handle & w1 & _ & ->).
    eexists handle, _. cbn [fst snd]. by autorewrite with world.
Qed.
End Initialiser.

Lemma init_bedrock_client_again (env : Env) (w : World)
    (handle : option Client) (elements : list UiEvent) :
  resource_cache w = Some (handle, elements) ->
  fst (init_bedrock_client env w) = Returns handle
  /\ constructed (snd (init_bedrock_client env w)) = constructed w
  /\ resource_cache (snd (init_bedrock_client env w)) = resource_cache w.
Proof.
  intros H. rewrite (init_bedrock_client_hit env w handle elements H).
  cbn [fst snd]. by destruct (emit_all_app elements w) as (_ & _ & -> & -> & _).
Qed.

(** C5: whatever the secrets store and boto3 do, the initialiser returns:
    a handle, or [None].  When the construction raises (a secret is
    missing, boto3 refuses, ...) exactly one error box is put on the
    page, whose text is the fixed heading followed by [str(e)] of the
    exception that was raised, and [None] is returned. *)
Theorem init_bedrock_client_never_raises (env : Env) (w : World) :
  (exists handle, fst (init_bedrock_client env w) = Returns handle)
  /\ (exists handle, fst (init_bedrock_client_body env w) = Returns handle)
  /\ (forall e,
        resource_cache w = None ->
        fst (construct_client env w) = Raises e ->
        fst (init_bedrock_client env w) = Returns None
        /\ ui (snd (init_bedrock_client env w))
           = ui w ++ [StError ("AWS Bedrock 클라이언트 초기화 실패: "
                               +:+ exc_str e)]
        /\ (exists text,
              last (ui (snd (init_bedrock_client env w))) = Some (StError text)
              /\ occurs_in (exc_str e) text)).
Proof.
  split; [|split].
  - destruct (init_bedrock_client_fills_cache env w) as (handle & _ & H & _).
    by exists handle.
  - destruct (init_bedrock_client_body_returns env w) as (handle & H & _).
    by exists handle.
  - intros e Hcache Hraise.
    destruct (init_bedrock_client_miss env w Hcache) as (handle & w1 & Hb & ->).
    destruct (init_bedrock_client_body_returns env w) as (handle' & Hret & Hnone).
    rewrite Hb in Hret, Hnone. cbn [fst snd] in *.
    injection Hret as <-. destruct (Hnone e Hraise) as [-> Hui].
    autorewrite with world. rewrite Hui. unfold init_failed_message.
    split; [reflexivity|]. split; [reflexivity|].
    exists ("AWS Bedrock 클라이언트 초기화 실패: " +:+ exc_str e). split.
    + apply last_snoc.
    + by exists "AWS Bedrock 클라이언트 초기화 실패: ", "";
        rewrite append_empty_r.
Qed.

Lemma init_bedrock_client_never_raises_witness :
  fst (init_bedrock_client unconfigured fresh_world) = Returns None
  /\ ui (snd (init_bedrock_client unconfigured fresh_world))
     = [StError "AWS Bedrock 클라이언트 초기화 실패: 'st.secrets has no key AWS_DEFAULT_REGION'"].
Proof.
  destruct (proj2 (proj2 (init_bedrock_client_never_raises
                            unconfigured fresh_world))
              (missing_secret "AWS_DEFAULT_REGION"))
    as (Hnone & Hshown & _); [reflexivity..|].
  exact (conj Hnone Hshown).
Defined.

(** C6, as stated, fails in its second half.  A process starts without
    credentials: the first call fails and returns [None].  The
    credentials are then put in place, so that running the constructor
    would now give a handle; yet the second call returns the cached [None]
    and boto3 is not asked again. *)
Lemma init_bedrock_client_caches_failure :
  let first := init_bedrock_client unconfigured fresh_world in
  let second := init_bedrock_client configured (snd first) in
  fst first = Returns None
  /\ fst (init_bedrock_client_body configured (snd first))
     = Returns (Some {| client_id := 0 |})
  /\ fst second = Returns None
  /\ constructed (snd second) = constructed (snd first).
Proof. vm_compute. repeat split. Qed.

(** C6, amended: the construction is attempted at most once per process.
    Whatever the first call returns, a handle after a successful
    construction or [None] after a failed one, is cached: every later call
    returns that same value, constructs nothing and leaves the cache as it
    is.  A failed construction is not retried. *)
Theorem init_bedrock_client_cached (env : Env) (w : World) :
  let first := init_bedrock_client env w in
  exists handle,
    fst first = Returns handle
    /\ constructed w <= constructed (snd first) <= constructed w + 1
    /\ (forall env' w',
          resource_cache w' = resource_cache (snd first) ->
          let next := init_bedrock_client env' w' in
          fst next = Returns handle
          /\ constructed (snd next) = constructed w'
          /\ resource_cache (snd next) = resource_cache w')
    /\ (forall n,
          let later := Nat.iter n (fun w => snd (init_bedrock_client env w))
                         (snd first) in
          fst (init_bedrock_client env later) = Returns handle
          /\ constructed later = constructed (snd first)).
Proof.
  cbv zeta.
  destruct (init_bedrock_client_fills_cache env w)
    as (handle & elements & Hret & Hcache).
  exists handle. split; [done|]. split.
  { by destruct (init_bedrock_client_frame env w) as (_ & _ & H). }
  split.
  - intros env' w' Hsame. rewrite Hcache in Hsame.
    apply (init_bedrock_client_again env' w' handle elements Hsame).
  - pose (step := fun w => snd (init_bedrock_client env w)).
    assert (Hiter : forall n,
      resource_cache (Nat.iter n step (snd (init_bedrock_client env w)))
      = Some (handle, elements)
      /\ constructed (Nat.iter n step (snd (init_bedrock_client env w)))
         = constructed (snd (init_bedrock_client env w))).
    { induction n as [|n [IHc IHn]]; [done|]. rewrite !Nat.iter_succ.
      unfold step at 1 3.
      destruct (init_bedrock_client_again env _ handle elements IHc)
        as (_ & -> & ->). done. }
    intros n. destruct (Hiter n) as [Hc Hn]. split; [|done].
    apply (init_bedrock_client_again env _ handle elements Hc).
Qed.

Lemma init_bedrock_client_cached_witness :
  fst (init_bedrock_client unconfigured
         (snd (init_bedrock_client configured fresh_world)))
  = Returns (Some {| client_id := 0 |})
  /\ constructed
       (snd (init_bedrock_client unconfigured
               (snd (init_bedrock_client configured fresh_world))))
     = 1.
Proof.
  destruct (init_bedrock_client_cached configured fresh_world)
    as (handle & Hfirst & _ & Hnext & _).
  vm_compute in Hfirst. injection Hfirst as <-.
  destruct (Hnext unconfigured
              (snd (init_bedrock_client configured fresh_world)))
    as (Hr & Hn & _); [reflexivity|].
  split; [exact Hr|]. rewrite Hn. reflexivity.
Defined.

(** ** The conversation *)

(** Appending to the list object at [l] is seen through every reference
    to it, and through no other. *)
Lemma read_list_append (l : loc) (m : Message) (w : World)
    (history : list Message) :
  lists w !! l = Some history ->
  lists (list_append l m w) !! l = Some (history ++ [m]).
Proof.
  intros H. autorewrite with world. by rewrite lookup_alter_eq, H.
Qed.

Lemma read_list_append_other (l l' : loc) (m : Message) (w : World) :
  l <> l' -> read_list l' (list_append l m w) = read_list l' w.
Proof.
  intros H. unfold read_list. autorewrite with world.
  by rewrite lookup_alter_ne.
Qed.

Section Typing.
Variable env : Env.

Lemma type_out_frame (todo : list pyval) (placeholder_text : string)
    (w : World) :
  let w' := snd (type_out env placeholder_text todo w) in
  lists w' = lists w /\ session_messages w' = session_messages w.
Proof.
  revert placeholder_text w.
  induction todo as [|char later IH]; intros placeholder_text w; [done|].
  destruct char; try done. cbn [type_out]. cbv zeta.
  destruct (IH (placeholder_text +:+ s)
              (sleep 0.01
                 (emit (StPlaceholderMarkdown
                          (PyStr ((placeholder_text +:+ s) +:+ cursor))) w)))
    as [-> ->].
  done.
Qed.

Lemma type_out_strings (chars : list string) (placeholder_text : string)
    (w : World) :
  fst (type_out env placeholder_text (map PyStr chars) w) = Returns tt.
Proof.
  revert placeholder_text w.
  induction chars as [|char later IH]; intros placeholder_text w; [done|].
  cbn [map type_out]. apply IH.
Qed.

Lemma typing_effect_frame (full_response : pyval) (w : World) :
  let w' := snd (typing_effect env full_response w) in
  lists w' = lists w /\ session_messages w' = session_messages w.
Proof.
  unfold typing_effect.
  destruct (py_iter env full_response) as [todo|e]; [|done].
  pose proof (type_out_frame todo "" w) as Hframe.
  destruct (type_out env "" todo w) as [[[]|e] w1]; cbn [snd] in *;
    autorewrite with world; done.
Qed.

(** A [str] is always typed out to the end. *)
Lemma typing_effect_str (s : string) (w : World) :
  fst (typing_effect env (PyStr s) w) = Returns tt.
Proof.
  unfold typing_effect. cbn [py_iter].
  pose proof (type_out_strings (PyStr.chars s) "" w) as H.
  destruct (type_out env "" _ w) as [[[]|e] w1]; cbn [fst] in *; done.
Qed.
End Typing.

Lemma accept_prompt_frame (prompt : string) (w : World)
    (history : list Message) :
  lists w !! session_messages w = Some history ->
  lists (accept_prompt prompt w) !! session_messages w
  = Some (history ++ [{| role := "user"; content := PyStr prompt |}])
  /\ session_messages (accept_prompt prompt w) = session_messages w
  /\ resource_cache (accept_prompt prompt w) = resource_cache w.
Proof.
  intros H. unfold accept_prompt. cbv zeta. autorewrite with world.
  by rewrite lookup_alter_eq, H.
Qed.

(** C9: [call_bedrock_api] changes no list object, whatever the service
    does on each attempt: the conversation it was given reads the same
    when it returns, through every reference.  In [main], with Bedrock on
    and a client at hand, the conversation after the turn is the old one,
    the user's message, and then one assistant message holding exactly the
    value [call_bedrock_api] returned; that message is appended once the
    reply has been typed out, which always happens when the reply is a
    [str], and nothing else is appended. *)
Theorem call_bedrock_api_leaves_conversation
    (env : Env) (client : Client) (messages : loc) (w : World) :
  let result := call_bedrock_api env client messages w in
  lists (snd result) = lists w
  /\ (forall l, read_list l (snd result) = read_list l w)
  /\ session_messages (snd result) = session_messages w
  /\ (forall prompt history w1,
        lists w !! session_messages w = Some history ->
        init_bedrock_client env (accept_prompt prompt w)
        = (Returns (Some client), w1) ->
        let reply :=
          fst (call_bedrock_api env client (session_messages w)
                 (emit (StSpinner "AI가 생각중입니다...") w1)) in
        let turn := main_prompt env true prompt w in
        let user := {| role := "user"; content := PyStr prompt |} in
        let assistant := {| role := "assistant"; content := reply |} in
        (fst turn = Returns tt ->
         lists (snd turn) !! session_messages w
         = Some (history ++ [user; assistant]))
        /\ (forall e, fst turn = Raises e ->
              lists (snd turn) !! session_messages w = Some (history ++ [user]))
        /\ (forall s, reply = PyStr s -> fst turn = Returns tt)).
Proof.
  cbv zeta.
  destruct (retry_loop_frame env client messages (py_range max_retries) w)
    as (Hlists & Hsession & _).
  fold (call_bedrock_api env client messages w) in Hlists, Hsession.
  split; [exact Hlists|]. split.
  { intros l. unfold read_list. by rewrite Hlists. }
  split; [exact Hsession|].
  intros prompt history w1 Hhistory Hinit.
  destruct (accept_prompt_frame prompt w history Hhistory)
    as (Haccepted & Hsame & _).
  pose proof (init_bedrock_client_frame env (accept_prompt prompt w))
    as (Hl1 & Hs1 & _).
  rewrite Hinit in Hl1, Hs1. cbn [snd] in Hl1, Hs1.
  unfold main_prompt, respond. rewrite Hinit, Hs1, Hsame.
  set (w2 := emit (StSpinner "AI가 생각중입니다...") w1).
  destruct (retry_loop_frame env client (session_messages w)
              (py_range max_retries) w2) as (Hl3 & Hs3 & _).
  fold (call_bedrock_api env client (session_messages w) w2) in Hl3, Hs3.
  destruct (call_bedrock_api env client (session_messages w) w2)
    as [reply w3].
  cbn [fst snd] in *.
  pose proof (typing_effect_frame env reply w3) as [Hl4 Hs4].
  pose proof (typing_effect_str env) as Hstr.
  destruct (typing_effect env reply w3) as [[[]|e] w4] eqn:Htyping;
    cbn [fst snd] in *.
  - split; [|split; [intros e [=]|done]].
    intros _. autorewrite with world.
    rewrite Hs4, Hs3, Hl4, Hl3. subst w2. autorewrite with world.
    rewrite Hs1, Hsame, Hl1, lookup_alter_eq, Haccepted.
    cbn. by rewrite <- app_assoc.
  - split; [intros [=]|]. split.
    + intros e' _. rewrite Hl4, Hl3. subst w2. autorewrite with world.
      by rewrite Hl1, Haccepted.
    + intros s ->. specialize (Hstr s w3). rewrite Htyping in Hstr.
      discriminate Hstr.
Qed.

(** ** The properties at work on sample worlds *)

Lemma call_bedrock_api_answered_on_fifth_attempt_witness :
  let env :=
    scripted [Raises throttling_exception; Raises throttling_exception;
              Raises throttling_exception; Raises throttling_exception;
              Returns hello_body] in
  let result := call_bedrock_api env {| client_id := 0 |} 0 fresh_world in
  slept (snd result) = [1; 2; 4; 8]%Q
  /\ invoked (snd result) = 5
  /\ fst result = PyStr "hello".
Proof.
  cbv zeta.
  apply (call_bedrock_api_answered_on_fifth_attempt
           (scripted [Raises throttling_exception; Raises throttling_exception;
                      Raises throttling_exception; Raises throttling_exception;
                      Returns hello_body])
           {| client_id := 0 |} 0 fresh_world hello_body).
  - intros k Hk. destruct k as [|[|[|[|k]]]]; [reflexivity..|lia].
  - reflexivity.
Defined.


Lemma call_bedrock_api_other_error_witness :
  let env :=
    scripted [Raises throttling_exception; Raises throttling_exception;
              Raises access_denied] in
  let result := call_bedrock_api env {| client_id := 0 |} 0 fresh_world in
  let at_once :=
    call_bedrock_api (scripted [Raises access_denied])
      {| client_id := 0 |} 0 fresh_world in
  (fst result = PyStr (error_message access_denied)
   /\ invoked (snd result) = 3
   /\ slept (snd result) = [1; 2]%Q)
  /\ (fst at_once = PyStr (error_message access_denied)
      /\ invoked (snd at_once) = 1
      /\ slept (snd at_once) = []).
Proof.
  cbv zeta. split.
  - destruct (call_bedrock_api_other_error
                (scripted [Raises throttling_exception;
                           Raises throttling_exception; Raises access_denied])
                {| client_id := 0 |} 0 fresh_world 2 access_denied)
      as (Hresult & _ & _ & Hinvoked & Hslept & _).
    + lia.
    + intros j Hj. destruct j as [|[|j]]; [reflexivity..|lia].
    + reflexivity.
    + reflexivity.
    + exact (conj Hresult (conj Hinvoked Hslept)).
  - destruct (call_bedrock_api_other_error
                (scripted [Raises access_denied])
                {| client_id := 0 |} 0 fresh_world 0 access_denied)
      as (Hresult & _ & _ & _ & _ & _ & Hfirst).
    + lia.
    + intros j Hj. lia.
    + reflexivity.
    + reflexivity.
    + destruct (Hfirst eq_refl) as [Hinvoked Hslept].
      exact (conj Hresult (conj Hinvoked Hslept)).
Defined.




Lemma call_bedrock_api_leaves_conversation_witness :
  lists (snd (main_prompt (scripted [Returns hello_body]) true "hi" fresh_world))
    !! 0
  = Some [ {| role := "user"; content := PyStr "hi" |};
           {| role := "assistant"; content := PyStr "hello" |} ].
Proof.
  destruct (call_bedrock_api_leaves_conversation
              (scripted [Returns hello_body]) {| client_id := 0 |} 0
              fresh_world) as (_ & _ & _ & Hturn).
  destruct (Hturn "hi" []
              (snd (init_bedrock_client (scripted [Returns hello_body])
                      (accept_prompt "hi" fresh_world))))
    as (Hdone & _ & Hstr).
  - reflexivity.
  - vm_compute. reflexivity.
  - apply Hdone. apply (Hstr "hello"). vm_compute. reflexivity.
Defined.

(** * Further properties *)

(** ** The retry loop in general *)


Section RetryLoop.
Variable env : Env.
Variable client : Client.
Variable messages : loc.

Local Abbreviation the_answer := (answer env client messages).
Local Abbreviation retry_loop := (retry_loop env client messages).

Lemma answer_after_backoff (k : Z) (w : World) (i : nat) :
  the_answer (backoff k (count_invocation w)) i = the_answer w (S i).
Proof.
  unfold answer, read_list, backoff. autorewrite with world.
  by replace (S (invoked w) + i) with (invoked w + S i) by lia.
Qed.



(** X2: throttled on the first [k] attempts, with [k] below 5, and
    answered on the next, the call sleeps after each throttled attempt
    only, invokes the service [k + 1] times and returns what the
    extraction makes of that answer. *)
Theorem call_bedrock_api_answered_after (w : World) (k : nat)
    (response_body : pyval) :
  k < 5 ->
  (forall j, j < k -> is_throttled (the_answer w j) = true) ->
  the_answer w k = Returns response_body ->
  let result := call_bedrock_api env client messages w in
  slept (snd result) = slept w ++ delays (py_range (Z.of_nat k))
  /\ invoked (snd result) = invoked w + k + 1
  /\ match extract_text env response_body with
     | Returns text => fst result = text
     | Raises e => fst result = PyStr (error_message e)
     end.
Proof.
  intros Hk Hthrottled Hanswer result. subst result. unfold call_bedrock_api.
  assert (Hsplit : exists later,
             py_range max_retries
             = py_range (Z.of_nat k) ++ Z.of_nat k :: later
             /\ length (py_range (Z.of_nat k)) = k).
  { destruct k as [|[|[|[|[|k]]]]]; [eexists; split; reflexivity..|lia]. }
  destruct Hsplit as (later & -> & Hlen).
  rewrite (retry_loop_settled env client messages); rewrite Hlen;
    [|exact Hthrottled|by rewrite Hanswer].
  rewrite Hanswer. cbv zeta. cbn [mbind outcome_bind].
  destruct (extract_text env response_body) as [text|e]; cbn [fst snd];
    autorewrite with world;
    rewrite after_throttled_slept, after_throttled_invoked, Hlen;
    (split; [reflexivity|split; [lia|reflexivity]]).
Qed.

End RetryLoop.

(** ** What the call depends on *)

Lemma extract_text_env (env env' : Env) (response_body : pyval) :
  type_error_text env = type_error_text env' ->
  extract_text env response_body = extract_text env' response_body.
Proof.
  intros H. unfold extract_text, py_in, py_getitem, type_error.
  by rewrite H.
Qed.

Lemma retry_loop_env (env env' : Env) (client : Client) (messages : loc)
    (ks : list Z) (w : World) :
  type_error_text env = type_error_text env' ->
  (forall i, i < length ks ->
     answer env client messages w i = answer env' client messages w i) ->
  retry_loop env client messages ks w = retry_loop env' client messages ks w.
Proof.
  intros Htext. revert w. induction ks as [|k ks IH]; intros w H; [done|].
  rewrite !retry_loop_cons.
  assert (Hattempt : attempt env client messages w
                     = attempt env' client messages w).
  { unfold attempt. rewrite <- !answer_first, (H 0) by (simpl; lia).
    destruct (answer env' client messages w 0) as [response_body|e];
      [|done].
    apply (extract_text_env env env' response_body Htext). }
  rewrite Hattempt.
  destruct (attempt env' client messages w) as [text|e]; [done|].
  destruct (exc_throttling e); [|done].
  apply IH. intros i Hi. rewrite !answer_after_backoff.
  apply H. simpl. lia.
Qed.

(** X3: the call reaches the service through [invoke_model] only, at most
    five times, each time with the fixed model, content type, protocol
    version and token limit and with the whole conversation.  Two
    environments that answer these five requests alike (and word the
    interpreter's errors alike) give the same result and the same world,
    whatever else they would answer. *)
Theorem call_bedrock_api_asks_five_requests (env env' : Env)
    (client : Client) (messages : loc) (w : World) :
  type_error_text env = type_error_text env' ->
  (forall k, k < 5 ->
     invoke_model env (invoked w + k) client
       {| modelId := "anthropic.claude-3-5-sonnet-20240620-v1:0";
          body := {| anthropic_version := "bedrock-2023-05-31";
                     max_tokens := 1000;
                     messages := read_list messages w |};
          contentType := "application/json" |}
     = invoke_model env' (invoked w + k) client
         {| modelId := "anthropic.claude-3-5-sonnet-20240620-v1:0";
            body := {| anthropic_version := "bedrock-2023-05-31";
                       max_tokens := 1000;
                       messages := read_list messages w |};
            contentType := "application/json" |}) ->
  call_bedrock_api env client messages w
  = call_bedrock_api env' client messages w.
Proof.
  intros Htext H. unfold call_bedrock_api.
  apply retry_loop_env; [exact Htext|]. exact H.
Qed.

(** ** Bodies of the wrong shape *)

Lemma extract_text_breaks (env : Env) (response_body : pyval) :
  if breaks_extraction response_body
  then exists fault,
         extract_text env response_body = Raises (type_error env fault)
  else exists text, extract_text env response_body = Returns text.
Proof.
  destruct response_body as [| | | |s|items|items];
    try (by eexists (NotAContainer _)).
  - unfold extract_text, breaks_extraction. cbn [py_in mbind outcome_bind].
    destruct (PyStr.contains "content" s); cbn [negb].
    + by eexists (BadSubscript _).
    + by eexists.
  - unfold extract_text, breaks_extraction. cbn [py_in mbind outcome_bind].
    destruct (existsb _ items); cbn [negb].
    + by eexists (BadSubscript _).
    + by eexists.
  - cbn [breaks_extraction]. rewrite extract_text_object. by eexists.
Qed.

(** X4: the extraction raises exactly on the bodies that are neither a
    JSON object nor a string or array free of "content": [null], numbers
    and booleans, a string in which "content" occurs, an array with the
    element "content".  What it raises is always a [TypeError], never a
    [KeyError] and never a throttling error; on every other body it
    returns. *)
Theorem extract_text_raises_iff (env : Env) (response_body : pyval) :
  (breaks_extraction response_body = true <->
   exists e, extract_text env response_body = Raises e)
  /\ (breaks_extraction response_body = false <->
      exists text, extract_text env response_body = Returns text)
  /\ (forall e, extract_text env response_body = Raises e ->
        exc_class e = "TypeError" /\ exc_throttling e = false).
Proof.
  pose proof (extract_text_breaks env response_body) as H.
  destruct (breaks_extraction response_body).
  - destruct H as [fault H]. rewrite H. split; [|split].
    + split; [by eexists|done].
    + split; [done|]. by intros [text [=]].
    + by intros e [= <-].
  - destruct H as [text H]. rewrite H. split; [|split].
    + split; [done|]. by intros [e [=]].
    + split; [by eexists|done].
    + by intros e [=].
Qed.

Lemma extract_text_raises_iff_witness :
  exc_class (type_error configured (NotAContainer PyNone)) = "TypeError"
  /\ exc_throttling (type_error configured (NotAContainer PyNone)) = false.
Proof.
  apply (proj2 (proj2 (extract_text_raises_iff configured PyNone))).
  reflexivity.
Defined.

Section WrongShape.
Variable env : Env.
Variable client : Client.
Variable messages : loc.

(** X5: a body on which the extraction raises is not retried and not
    answered with the "no text" string: after the one invocation the
    [TypeError] is shown on the page and its message is the result. *)
Theorem call_bedrock_api_broken_body (w : World) (response_body : pyval) :
  answer env client messages w 0 = Returns response_body ->
  breaks_extraction response_body = true ->
  exists e,
    exc_class e = "TypeError"
    /\ extract_text env response_body = Raises e
    /\ call_bedrock_api env client messages w
       = (PyStr (error_message e),
          emit (StError (error_message e)) (count_invocation w)).
Proof.
  intros Hanswer Hbreaks.
  pose proof (extract_text_breaks env response_body) as H.
  rewrite Hbreaks in H. destruct H as [fault H].
  exists (type_error env fault). split; [done|]. split; [done|].
  unfold call_bedrock_api.
  change (py_range max_retries) with (0 :: [1; 2; 3; 4])%Z.
  rewrite answer_first in Hanswer.
  by rewrite (retry_loop_answered _ _ _ _ _ _ _ Hanswer), H.
Qed.


End WrongShape.

Lemma call_bedrock_api_asks_five_requests_witness :
  call_bedrock_api (scripted [Returns hello_body]) {| client_id := 0 |} 0
    fresh_world
  = call_bedrock_api
      (sample_env secrets_absent (fun _ => Raises access_denied)
         [Returns hello_body])
      {| client_id := 0 |} 0 fresh_world.
Proof.
  apply (call_bedrock_api_asks_five_requests
           (scripted [Returns hello_body])
           (sample_env secrets_absent (fun _ => Raises access_denied)
              [Returns hello_body])
           {| client_id := 0 |} 0 fresh_world).
  - reflexivity.
  - intros k Hk. reflexivity.
Defined.

Lemma call_bedrock_api_answered_after_witness :
  let env :=
    scripted [Raises throttling_exception; Raises throttling_exception;
              Returns hello_body] in
  let result := call_bedrock_api env {| client_id := 0 |} 0 fresh_world in
  slept (snd result) = [1; 2]%Q
  /\ invoked (snd result) = 3
  /\ fst result = PyStr "hello".
Proof.
  cbv zeta.
  apply (call_bedrock_api_answered_after
           (scripted [Raises throttling_exception; Raises throttling_exception;
                      Returns hello_body])
           {| client_id := 0 |} 0 fresh_world 2 hello_body).
  - lia.
  - intros j Hj. destruct j as [|[|j]]; [reflexivity..|lia].
  - reflexivity.
Defined.

Lemma call_bedrock_api_broken_body_witness :
  exists e,
    exc_class e = "TypeError"
    /\ extract_text (scripted [Returns PyNone]) PyNone = Raises e
    /\ call_bedrock_api (scripted [Returns PyNone]) {| client_id := 0 |} 0
         fresh_world
       = (PyStr (error_message e),
          emit (StError (error_message e)) (count_invocation fresh_world)).
Proof.
  apply (call_bedrock_api_broken_body (scripted [Returns PyNone])
           {| client_id := 0 |} 0 fresh_world PyNone); reflexivity.
Defined.


(** ** The initialiser, case by case *)

Section InitialiserCases.
Variable env : Env.
Variable w : World.
Hypothesis Hmiss : resource_cache w = None.

(** The outcome of a failed construction that left the world as [w1]. *)
Lemma init_bedrock_client_failed (e : PyExc) (w1 : World) :
  construct_client env w = (Raises e, w1) ->
  ui w1 = ui w ->
  init_bedrock_client env w
  = (Returns None,
     store_cache (None, [StError (init_failed_message e)])
       (emit (StError (init_failed_message e)) w1)).
Proof.
  intros Hconstruct Hui.
  unfold init_bedrock_client, cache_resource, init_bedrock_client_body.
  rewrite Hmiss, Hconstruct. autorewrite with world.
  by rewrite Hui, drop_app_length.
Qed.

(** X7: with nothing cached, the initialiser returns a handle exactly
    when the three secrets are there and [boto3.client], called for
    "bedrock-runtime" with the region, the access key and the secret key
    in this order, returns; the handle is then the newly made client. *)
Theorem init_bedrock_client_handle_iff (handle : Client) :
  fst (init_bedrock_client env w) = Returns (Some handle)
  <-> exists region access_key secret_key,
        st_secrets env "AWS_DEFAULT_REGION" = Returns region
        /\ st_secrets env "AWS_ACCESS_KEY_ID" = Returns access_key
        /\ st_secrets env "AWS_SECRET_ACCESS_KEY" = Returns secret_key
        /\ boto3_client env (constructed w)
             "bedrock-runtime" region access_key secret_key = Returns tt
        /\ handle = {| client_id := constructed w |}.
Proof.
  unfold init_bedrock_client, cache_resource, init_bedrock_client_body,
    construct_client.
  rewrite Hmiss.
  destruct (st_secrets env "AWS_DEFAULT_REGION") as [region|e];
    cbn [mbind outcome_bind fst];
    [|split; [done|by intros (? & ? & ? & [=] & _)]].
  destruct (st_secrets env "AWS_ACCESS_KEY_ID") as [access_key|e];
    cbn [mbind outcome_bind fst];
    [|split; [done|by intros (? & ? & ? & _ & [=] & _)]].
  destruct (st_secrets env "AWS_SECRET_ACCESS_KEY") as [secret_key|e];
    cbn [mbind outcome_bind mret outcome_ret fst];
    [|split; [done|by intros (? & ? & ? & _ & _ & [=] & _)]].
  destruct (boto3_client env (constructed w) "bedrock-runtime"
              region access_key secret_key) as [[]|e] eqn:Hboto;
    cbn [fst].
  - split.
    + intros [= <-]. by exists region, access_key, secret_key.
    + intros (r & a & s & [= <-] & [= <-] & [= <-] & _ & ->). done.
  - split; [done|].
    intros (r & a & s & [= <-] & [= <-] & [= <-] & Hok & _).
    rewrite Hboto in Hok. discriminate Hok.
Qed.

(** X8: the failure that is shown is the first one in the order region,
    access key, secret key, [boto3.client], whatever the later lookups
    would do.  When a secret is missing boto3 is never called; when boto3
    itself raises, that one call is counted.  In every case the page gets
    one error box, whose text is the fixed heading followed by [str(e)]
    of that first exception, [None] is returned, and [None] is what the
    cache holds afterwards. *)
Theorem init_bedrock_client_first_failure (e : PyExc) :
  let result := init_bedrock_client env w in
  let shown :=
    StError ("AWS Bedrock 클라이언트 초기화 실패: " +:+ exc_str e) in
  let reported n :=
    fst result = Returns None
    /\ ui (snd result) = ui w ++ [shown]
    /\ resource_cache (snd result) = Some (None, [shown])
    /\ constructed (snd result) = constructed w + n in
  (st_secrets env "AWS_DEFAULT_REGION" = Raises e -> reported 0)
  /\ (forall region,
        st_secrets env "AWS_DEFAULT_REGION" = Returns region ->
        st_secrets env "AWS_ACCESS_KEY_ID" = Raises e -> reported 0)
  /\ (forall region access_key,
        st_secrets env "AWS_DEFAULT_REGION" = Returns region ->
        st_secrets env "AWS_ACCESS_KEY_ID" = Returns access_key ->
        st_secrets env "AWS_SECRET_ACCESS_KEY" = Raises e -> reported 0)
  /\ (forall region access_key secret_key,
        st_secrets env "AWS_DEFAULT_REGION" = Returns region ->
        st_secrets env "AWS_ACCESS_KEY_ID" = Returns access_key ->
        st_secrets env "AWS_SECRET_ACCESS_KEY" = Returns secret_key ->
        boto3_client env (constructed w)
          "bedrock-runtime" region access_key secret_key = Raises e ->
        reported 1).
Proof.
  cbv zeta.
  change ("AWS Bedrock 클라이언트 초기화 실패: " +:+ exc_str e)
    with (init_failed_message e).
  assert (Hreport : forall w1 n,
            construct_client env w = (Raises e, w1) ->
            ui w1 = ui w -> constructed w1 = constructed w + n ->
            fst (init_bedrock_client env w) = Returns None
            /\ ui (snd (init_bedrock_client env w))
               = ui w ++ [StError (init_failed_message e)]
            /\ resource_cache (snd (init_bedrock_client env w))
               = Some (None, [StError (init_failed_message e)])
            /\ constructed (snd (init_bedrock_client env w))
               = constructed w + n).
  { intros w1 n Hconstruct Hui Hn.
    rewrite (init_bedrock_client_failed e w1 Hconstruct Hui).
    cbn [fst snd]. autorewrite with world. by rewrite Hui, Hn. }
  split; [|split; [|split]].
  - intros H1. apply (Hreport w 0); [|done|lia].
    unfold construct_client. by rewrite H1.
  - intros region H1 H2. apply (Hreport w 0); [|done|lia].
    unfold construct_client. by rewrite H1, H2.
  - intros region access_key H1 H2 H3. apply (Hreport w 0); [|done|lia].
    unfold construct_client. by rewrite H1, H2, H3.
  - intros region access_key secret_key H1 H2 H3 H4.
    apply (Hreport (count_construction w) 1);
      [|done|autorewrite with world; lia].
    unfold construct_client. rewrite H1, H2, H3.
    cbn [mbind outcome_bind mret outcome_ret]. by rewrite H4.
Qed.

(** X9: a failure is shown again by every later call.  After a first call
    whose construction raised, a call in any later world with the cache
    as the first call left it constructs nothing, returns [None] and puts
    the same error on the page once more. *)
Theorem init_bedrock_client_replays_failure (e : PyExc) (w1 : World) :
  construct_client env w = (Raises e, w1) ->
  forall env' w',
    resource_cache w' = resource_cache (snd (init_bedrock_client env w)) ->
    init_bedrock_client env' w'
    = (Returns None, emit (StError (init_failed_message e)) w').
Proof.
  intros Hconstruct env' w' Hcache.
  pose proof (construct_client_frame env w) as (_ & _ & _ & Hui & _).
  rewrite Hconstruct in Hui. cbn [snd] in Hui.
  rewrite (init_bedrock_client_failed e w1 Hconstruct Hui) in Hcache.
  cbn [snd] in Hcache. autorewrite with world in Hcache.
  by rewrite (init_bedrock_client_hit env' w' _ _ Hcache).
Qed.

End InitialiserCases.

Lemma init_bedrock_client_handle_iff_witness :
  fst (init_bedrock_client configured fresh_world)
  = Returns (Some {| client_id := 0 |}).
Proof.
  apply (init_bedrock_client_handle_iff configured fresh_world eq_refl
           {| client_id := 0 |}).
  exists "secret:AWS_DEFAULT_REGION", "secret:AWS_ACCESS_KEY_ID",
    "secret:AWS_SECRET_ACCESS_KEY".
  repeat split; reflexivity.
Defined.

Lemma init_bedrock_client_first_failure_witness :
  (fst (init_bedrock_client access_key_missing fresh_world) = Returns None
   /\ ui (snd (init_bedrock_client access_key_missing fresh_world))
      = [StError "AWS Bedrock 클라이언트 초기화 실패: 'st.secrets has no key AWS_ACCESS_KEY_ID'"]
   /\ constructed (snd (init_bedrock_client access_key_missing fresh_world))
      = 0)
  /\ (fst (init_bedrock_client boto3_refusing fresh_world) = Returns None
      /\ ui (snd (init_bedrock_client boto3_refusing fresh_world))
         = [StError ("AWS Bedrock 클라이언트 초기화 실패: "
                     +:+ exc_str access_denied)]
      /\ constructed (snd (init_bedrock_client boto3_refusing fresh_world))
         = 1).
Proof.
  split.
  - destruct (proj1 (proj2 (init_bedrock_client_first_failure
                              access_key_missing fresh_world eq_refl
                              (missing_secret "AWS_ACCESS_KEY_ID")))
                "secret:AWS_DEFAULT_REGION")
      as (H1 & H2 & _ & H4); [reflexivity..|].
    exact (conj H1 (conj H2 H4)).
  - destruct (proj2 (proj2 (proj2 (init_bedrock_client_first_failure
                                     boto3_refusing fresh_world eq_refl
                                     access_denied)))
                "secret:AWS_DEFAULT_REGION" "secret:AWS_ACCESS_KEY_ID"
                "secret:AWS_SECRET_ACCESS_KEY")
      as (H1 & H2 & _ & H4); [reflexivity..|].
    exact (conj H1 (conj H2 H4)).
Defined.

Lemma init_bedrock_client_replays_failure_witness :
  ui (snd (init_bedrock_client configured
             (snd (init_bedrock_client unconfigured fresh_world))))
  = [StError (init_failed_message (missing_secret "AWS_DEFAULT_REGION"));
     StError (init_failed_message (missing_secret "AWS_DEFAULT_REGION"))].
Proof.
  rewrite (init_bedrock_client_replays_failure unconfigured fresh_world
             eq_refl (missing_secret "AWS_DEFAULT_REGION") fresh_world
             eq_refl configured
             (snd (init_bedrock_client unconfigured fresh_world)) eq_refl).
  reflexivity.
Defined.

(** ** The local responder, reply by reply *)

Lemma contains_needs_first_byte (a : ascii) (keyword input : string) :
  ascii_only input = true ->
  (128 <= nat_of_ascii a)%nat ->
  PyStr.contains (String a keyword) input = false.
Proof.
  intros Hinput Ha. induction input as [|b input IH]; [done|].
  cbn [ascii_only] in Hinput.
  apply andb_true_iff in Hinput as [Hb%Nat.ltb_lt Hinput].
  rewrite contains_unfold, (IH Hinput), orb_false_r. cbn [String.prefix].
  destruct (ascii_dec a b) as [->|_]; [lia|done].
Qed.

(** X10: an input written in ASCII only, the empty input among them,
    always gets the generic fallback: no keyword can occur in it. *)
Theorem local_chatbot_response_ascii (now : LocalTime) (user_input : string) :
  ascii_only user_input = true ->
  local_chatbot_response now user_input = generic_fallback.
Proof.
  intros H. rewrite local_chatbot_response_cascade.
  rewrite !(contains_needs_first_byte _ _ user_input H); [done|..];
    vm_compute; lia.
Qed.

Lemma local_chatbot_response_ascii_witness :
  local_chatbot_response {| tm_hour := 23; tm_min := 59 |}
    "What time is it? (weather, name, hello)"
  = generic_fallback.
Proof.
  apply (local_chatbot_response_ascii {| tm_hour := 23; tm_min := 59 |}
           "What time is it? (weather, name, hello)").
  reflexivity.
Defined.

Lemma replies_differ (now : LocalTime) :
  NoDup [greeting_reply; name_reply; weather_reply; time_reply now;
         generic_fallback].
Proof.
  repeat (apply NoDup_cons; split;
          [rewrite ?elem_of_cons, elem_of_nil;
           intros H; repeat (destruct H as [H|H]); try done;
           vm_compute in H; discriminate H|]).
  apply NoDup_nil. done.
Qed.

(** X11: which inputs get which reply.  The greeting goes to exactly the
    inputs in which "안녕" occurs, whatever else occurs in them; the name
    reply to those with "이름" and no "안녕"; the weather reply to those
    with "날씨" and neither of the two; the time reply to those with "시간"
    and none of the three; the generic fallback to the inputs with none of
    the four.  The five replies are different strings, so the reply tells
    the cases apart. *)
Theorem local_chatbot_response_reply_iff
    (now : LocalTime) (user_input : string) :
  let has keyword := PyStr.contains keyword user_input in
  let reply := local_chatbot_response now user_input in
  (reply = greeting_reply <-> has "안녕" = true)
  /\ (reply = name_reply <-> has "안녕" = false /\ has "이름" = true)
  /\ (reply = weather_reply <->
      has "안녕" = false /\ has "이름" = false /\ has "날씨" = true)
  /\ (reply = time_reply now <->
      has "안녕" = false /\ has "이름" = false /\ has "날씨" = false
      /\ has "시간" = true)
  /\ (reply = generic_fallback <->
      has "안녕" = false /\ has "이름" = false /\ has "날씨" = false
      /\ has "시간" = false).
Proof.
  cbv zeta. rewrite local_chatbot_response_cascade.
  pose proof (replies_differ now) as Hdiff.
  rewrite !NoDup_cons, !elem_of_cons, elem_of_nil in Hdiff.
  destruct (PyStr.contains "안녕" user_input),
           (PyStr.contains "이름" user_input),
           (PyStr.contains "날씨" user_input),
           (PyStr.contains "시간" user_input);
    repeat split; try done; intros; intuition congruence.
Qed.

Lemma local_chatbot_response_reply_iff_witness :
  local_chatbot_response {| tm_hour := 9; tm_min := 0 |} "이름과 시간"
  = name_reply.
Proof.
  apply (proj1 (proj2 (local_chatbot_response_reply_iff
                         {| tm_hour := 9; tm_min := 0 |} "이름과 시간"))).
  split; reflexivity.
Defined.

(** ** The clock in the reply *)







(** ** The typing effect *)

Lemma take_continuation_split (s : string) :
  s = fst (PyStr.take_continuation s) +:+ snd (PyStr.take_continuation s)
  /\ String.length (snd (PyStr.take_continuation s)) <= String.length s.
Proof.
  induction s as [|a s [IH1 IH2]]; [done|]. cbn [PyStr.take_continuation].
  destruct (PyStr.is_continuation a); [|cbn; split; [done|lia]].
  destruct (PyStr.take_continuation s) as [c r]. cbn [fst snd] in *.
  split; [|cbn; lia].
  change (String a s = String a (c +:+ r)). by rewrite <- IH1.
Qed.

Lemma chars_aux_join (fuel : nat) (s : string) :
  String.length s <= fuel ->
  foldr String.append "" (PyStr.chars_aux fuel s) = s.
Proof.
  revert s. induction fuel as [|fuel IH]; intros s Hs.
  - destruct s; [done|]. cbn in Hs. lia.
  - destruct s as [|a s]; [done|]. cbn [PyStr.chars_aux].
    destruct (take_continuation_split s) as [Hsplit Hlen].
    destruct (PyStr.take_continuation s) as [c r]. cbn [fst snd] in *.
    cbn [foldr]. rewrite IH by (cbn in Hs; lia).
    change (String a (c +:+ r) = String a s). by rewrite <- Hsplit.
Qed.

Section TypingOut.
Variable env : Env.

Local Abbreviation join := (foldr String.append "").
Local Abbreviation frame :=
  (fun text => StPlaceholderMarkdown (PyStr (text +:+ cursor))).

Lemma type_out_run (chars : list string) (shown : string) (w : World) :
  let result := type_out env shown (map PyStr chars) w in
  fst result = Returns tt
  /\ ui (snd result)
     = ui w ++ map (fun i => frame (shown +:+ join (take (S i) chars)))
                 (seq 0 (length chars))
  /\ slept (snd result) = slept w ++ replicate (length chars) 0.01%Q
  /\ lists (snd result) = lists w
  /\ session_messages (snd result) = session_messages w
  /\ resource_cache (snd result) = resource_cache w
  /\ constructed (snd result) = constructed w
  /\ invoked (snd result) = invoked w
  /\ clock_reads (snd result) = clock_reads w.
Proof.
  cbv zeta. revert shown w.
  induction chars as [|char chars IH]; intros shown w.
  - cbn. rewrite !app_nil_r. repeat split.
  - cbn [map type_out]. cbv zeta.
    destruct (IH (shown +:+ char)
                (sleep 0.01
                   (emit (StPlaceholderMarkdown
                            (PyStr ((shown +:+ char) +:+ cursor))) w)))
      as (-> & -> & -> & -> & -> & -> & -> & -> & ->).
    autorewrite with world. cbn [length replicate seq map].
    rewrite <- seq_shift, map_map, <- !app_assoc.
    cbn [take foldr app]. rewrite append_empty_r.
    repeat split.
    apply (f_equal (fun frames => ui w ++ frame (shown +:+ char) :: frames)).
    apply map_ext. intros i. by rewrite (append_assoc shown char).
Qed.

(** X13: typing out a reply that is a [str] always comes to its end.  The
    placeholder is redrawn once per character, the i-th time with the
    first i characters of the reply followed by the cursor, each redraw
    followed by a sleep of 0.01 seconds, and at last with the reply itself
    and no cursor; the characters put together are the reply.  Nothing
    else in the world changes. *)
Theorem typing_effect_of_str (s : string) (w : World) :
  let result := typing_effect env (PyStr s) w in
  let chars := PyStr.chars s in
  fst result = Returns tt
  /\ join chars = s
  /\ ui (snd result)
     = ui w
       ++ map (fun i => frame (join (take (S i) chars))) (seq 0 (length chars))
       ++ [StPlaceholderMarkdown (PyStr s)]
  /\ slept (snd result) = slept w ++ replicate (length chars) 0.01%Q
  /\ lists (snd result) = lists w
  /\ session_messages (snd result) = session_messages w
  /\ resource_cache (snd result) = resource_cache w
  /\ constructed (snd result) = constructed w
  /\ invoked (snd result) = invoked w
  /\ clock_reads (snd result) = clock_reads w.
Proof.
  cbv zeta. unfold typing_effect. cbn [py_iter].
  pose proof (type_out_run (PyStr.chars s) "" w) as H. cbv zeta in H.
  destruct (type_out env "" (map PyStr (PyStr.chars s)) w) as [[[]|e] w1];
    cbn [fst snd] in *;
    destruct H as (H0 & Hui & Hslept & Hl & Hs & Hc & Hn & Hi & Hr);
    [|discriminate H0].
  autorewrite with world.
  rewrite Hui, Hslept, Hl, Hs, Hc, Hn, Hi, Hr, <- app_assoc.
  split; [done|]. split; [by apply chars_aux_join|]. done.
Qed.

End TypingOut.

(** ** Whole turns *)

Lemma emit_all_rest (es : list UiEvent) (w : World) :
  invoked (emit_all es w) = invoked w
  /\ slept (emit_all es w) = slept w
  /\ clock_reads (emit_all es w) = clock_reads w.
Proof.
  revert w. induction es as [|e es IH]; intros w; unfold emit_all in *;
    [done|].
  cbn [fold_left]. by destruct (IH (emit e w)) as (-> & -> & ->).
Qed.

(** The initialiser does not call the service, sleep or read the clock. *)
Lemma init_bedrock_client_rest (env : Env) (w : World) :
  let w1 := snd (init_bedrock_client env w) in
  invoked w1 = invoked w /\ slept w1 = slept w
  /\ clock_reads w1 = clock_reads w.
Proof.
  unfold init_bedrock_client, cache_resource.
  destruct (resource_cache w) as [[handle elements]|].
  - cbn [snd]. apply emit_all_rest.
  - unfold init_bedrock_client_body, construct_client.
    destruct (_ ≫= _) as [[[region access_key] secret_key]|e];
      [destruct (boto3_client _ _ _ _ _ _)|]; cbn [snd];
      by autorewrite with world.
Qed.

Section Turn.
Variable env : Env.
Variable prompt : string.
Variable w : World.
Variable history : list Message.
Hypothesis Hhistory : lists w !! session_messages w = Some history.

Local Abbreviation user := {| role := "user"; content := PyStr prompt |}.
Local Abbreviation assistant :=
  (fun reply => {| role := "assistant"; content := reply |}).
Local Abbreviation asked := (accept_prompt prompt w).

Lemma accept_prompt_rest :
  lists asked
  = alter (fun ms => ms ++ [user]) (session_messages w) (lists w)
  /\ invoked asked = invoked w /\ constructed asked = constructed w
  /\ slept asked = slept w /\ clock_reads asked = clock_reads w
  /\ ui asked
     = ui w ++ [StChatMessage "user"; StMarkdown (PyStr prompt);
                StChatMessage "assistant"; StEmpty].
Proof.
  unfold accept_prompt. cbv zeta. autorewrite with world.
  by rewrite <- !app_assoc.
Qed.

(** How a turn ends, given how the reply was obtained. *)
Lemma main_prompt_ends (use_bedrock : bool) (reply : pyval) (w1 : World) :
  respond env use_bedrock prompt asked = (Returns reply, w1) ->
  lists w1 = lists asked ->
  session_messages w1 = session_messages w ->
  let turn := main_prompt env use_bedrock prompt w in
  let typed := typing_effect env reply w1 in
  session_messages (snd turn) = session_messages w
  /\ (forall l, l <> session_messages w ->
        lists (snd turn) !! l = lists w !! l)
  /\ match fst typed with
     | Returns _ =>
         turn = (Returns tt,
                 list_append (session_messages w) (assistant reply) (snd typed))
         /\ lists (snd turn) !! session_messages w
            = Some (history ++ [user; assistant reply])
     | Raises e =>
         turn = (Raises e, snd typed)
         /\ lists (snd turn) !! session_messages w = Some (history ++ [user])
     end.
Proof.
  intros Hrespond Hlists Hsession. cbv zeta.
  unfold main_prompt. rewrite Hrespond.
  pose proof (typing_effect_frame env reply w1) as [Hl Hs].
  destruct accept_prompt_rest as (Hasked & _).
  destruct (typing_effect env reply w1) as [[[]|e] w2]; cbn [fst snd] in *.
  - rewrite Hs, Hsession. autorewrite with world.
    rewrite Hs, Hsession, Hl, Hlists, Hasked. split; [done|]. split.
    + intros l Hl'. by rewrite !lookup_alter_ne.
    + split; [done|]. rewrite !lookup_alter_eq, Hhistory. cbn.
      by rewrite <- app_assoc.
  - rewrite Hs, Hsession, Hl, Hlists, Hasked. split; [done|]. split.
    + intros l Hl'. by rewrite !lookup_alter_ne.
    + split; [done|]. by rewrite !lookup_alter_eq, Hhistory.
Qed.

(** The reply is always obtained: neither mode raises, and neither
    touches a list object. *)
Lemma respond_returns (use_bedrock : bool) :
  exists reply w1,
    respond env use_bedrock prompt asked = (Returns reply, w1)
    /\ lists w1 = lists asked
    /\ session_messages w1 = session_messages w.
Proof.
  assert (Hs : session_messages asked = session_messages w).
  { by destruct (accept_prompt_frame prompt w history Hhistory) as (_ & ? & _). }
  unfold respond. destruct use_bedrock.
  - pose proof (init_bedrock_client_frame env asked) as (Hl1 & Hs1 & _).
    destruct (init_bedrock_client_fills_cache env asked)
      as (handle & _ & Hret & _).
    destruct (init_bedrock_client env asked) as [r w1]; cbn [fst snd] in *.
    subst r. destruct handle as [bedrock_client|].
    + destruct (retry_loop_frame env bedrock_client (session_messages w1)
                  (py_range max_retries)
                  (emit (StSpinner "AI가 생각중입니다...") w1))
        as (Hl2 & Hs2 & _).
      fold (call_bedrock_api env bedrock_client (session_messages w1)
              (emit (StSpinner "AI가 생각중입니다...") w1)) in Hl2, Hs2.
      destruct (call_bedrock_api _ _ _ _) as [reply w2]; cbn [snd] in *.
      exists reply, w2. autorewrite with world in Hl2, Hs2.
      by rewrite Hl2, Hs2, Hl1, Hs1, Hs.
    + eexists _, _. split; [reflexivity|].
      unfold call_local_chatbot_response. cbn [snd].
      autorewrite with world. by rewrite Hl1, Hs1, Hs.
  - eexists _, _. split; [reflexivity|].
    autorewrite with world. by rewrite Hs.
Qed.

(** X14: a turn only ever appends.  In either mode and whatever the
    outside world does, the turn leaves [st.session_state.messages] bound
    to the same list object, leaves every other list object as it was,
    and turns the conversation into the old one followed by the user's
    message and, when the turn comes to its end, by exactly one assistant
    message; when the typing raises, by nothing more. *)
Theorem main_prompt_appends (use_bedrock : bool) :
  let turn := main_prompt env use_bedrock prompt w in
  session_messages (snd turn) = session_messages w
  /\ (forall l, l <> session_messages w ->
        lists (snd turn) !! l = lists w !! l)
  /\ match fst turn with
     | Returns _ =>
         exists reply,
           lists (snd turn) !! session_messages w
           = Some (history ++ [user; assistant reply])
     | Raises _ =>
         lists (snd turn) !! session_messages w = Some (history ++ [user])
     end.
Proof.
  cbv zeta.
  destruct (respond_returns use_bedrock) as (reply & w1 & Hr & Hl & Hs).
  destruct (main_prompt_ends use_bedrock reply w1 Hr Hl Hs)
    as (Hsame & Hother & Hend).
  split; [done|]. split; [done|].
  destruct (fst (typing_effect env reply w1)) as [[]|e];
    destruct Hend as [-> Hconv]; cbn [fst snd] in *; [by exists reply|done].
Qed.

(** X15: with Bedrock off the turn always comes to its end.  The reply is
    that of the local responder at the time the clock shows; it is
    appended to the conversation after the user's message.  The turn
    sleeps one second and then 0.01 seconds per character of the reply,
    reads the clock once, and neither constructs a client nor touches the
    cache nor calls the service. *)
Theorem main_prompt_local :
  let turn := main_prompt env false prompt w in
  let reply := local_chatbot_response (localtime env (clock_reads w)) prompt in
  fst turn = Returns tt
  /\ lists (snd turn) !! session_messages w
     = Some (history ++ [user; assistant (PyStr reply)])
  /\ slept (snd turn)
     = slept w ++ 1%Q :: replicate (length (PyStr.chars reply)) 0.01%Q
  /\ clock_reads (snd turn) = S (clock_reads w)
  /\ invoked (snd turn) = invoked w
  /\ constructed (snd turn) = constructed w
  /\ resource_cache (snd turn) = resource_cache w.
Proof.
  cbv zeta.
  destruct accept_prompt_rest as (Hal & Hai & Hac & Has & Har & _).
  destruct (accept_prompt_frame prompt w history Hhistory)
    as (_ & Hsession & Hcache).
  set (reply := local_chatbot_response (localtime env (clock_reads w)) prompt).
  set (w1 := count_clock_read
               (sleep 1 (emit (StSpinner "로컬 AI가 생각중입니다...") asked))).
  assert (Hrespond : respond env false prompt asked
                     = (Returns (PyStr reply), w1)).
  { unfold respond, call_local_chatbot_response. subst reply w1.
    autorewrite with world. by rewrite Har. }
  destruct (main_prompt_ends false (PyStr reply) w1 Hrespond)
    as (_ & _ & Hend);
    [subst w1; by autorewrite with world..|].
  destruct (typing_effect_of_str env reply w1)
    as (Hdone & _ & _ & Hslept & _ & _ & Hc & Hn & Hi & Hr).
  rewrite Hdone in Hend. destruct Hend as [-> Hconv]. cbn [fst snd].
  split; [reflexivity|]. split; [exact Hconv|].
  autorewrite with world. rewrite Hslept, Hc, Hn, Hi, Hr. subst w1.
  autorewrite with world. rewrite Has, Har, Hai, Hac, Hcache, <- app_assoc.
  repeat split.
Qed.

(** X16: with Bedrock on and no client to be had, the turn always comes to
    its end as well.  The reply is the notice of the failed connection,
    an empty line and the local responder's reply; the service is not
    called, and there is no sleep but that of the typing. *)
Theorem main_prompt_without_client :
  fst (init_bedrock_client env asked) = Returns None ->
  let turn := main_prompt env true prompt w in
  let reply :=
    connection_failed +:+ PyStr.nl +:+ PyStr.nl
    +:+ local_chatbot_response (localtime env (clock_reads w)) prompt in
  fst turn = Returns tt
  /\ lists (snd turn) !! session_messages w
     = Some (history ++ [user; assistant (PyStr reply)])
  /\ slept (snd turn)
     = slept w ++ replicate (length (PyStr.chars reply)) 0.01%Q
  /\ invoked (snd turn) = invoked w.
Proof.
  intros Hinit. cbv zeta.
  destruct accept_prompt_rest as (_ & Hai & _ & Has & Har & _).
  destruct (accept_prompt_frame prompt w history Hhistory)
    as (_ & Hsession & _).
  pose proof (init_bedrock_client_frame env asked) as (Hl1 & Hs1 & _).
  pose proof (init_bedrock_client_rest env asked) as (Hi1 & Hsl1 & Hr1).
  destruct (init_bedrock_client env asked) as [r w1] eqn:Hcall;
    cbn [fst snd] in *. subst r.
  set (reply := connection_failed +:+ PyStr.nl +:+ PyStr.nl
                +:+ local_chatbot_response (localtime env (clock_reads w))
                      prompt).
  assert (Hrespond : respond env true prompt asked
                     = (Returns (PyStr reply), count_clock_read w1)).
  { unfold respond, call_local_chatbot_response. rewrite Hcall. subst reply.
    by rewrite Hr1, Har. }
  destruct (main_prompt_ends true (PyStr reply) _ Hrespond) as (_ & _ & Hend);
    [autorewrite with world; congruence..|].
  destruct (typing_effect_of_str env reply (count_clock_read w1))
    as (Hdone & _ & _ & Hslept & _ & _ & _ & _ & Hi & _).
  rewrite Hdone in Hend. destruct Hend as [-> Hconv]. cbn [fst snd].
  split; [reflexivity|]. split; [exact Hconv|].
  autorewrite with world. rewrite Hslept, Hi. autorewrite with world.
  rewrite Hsl1, Has, Hi1, Hai. split; reflexivity.
Qed.

End Turn.

(** ** A turn with Bedrock *)

Section BedrockTurn.
Variable env : Env.
Variable prompt : string.
Variable w : World.
Variable history : list Message.
Variable client : Client.
Variable w1 : World.
Variable response_body : pyval.
Hypothesis Hhistory : lists w !! session_messages w = Some history.
Hypothesis Hclient :
  init_bedrock_client env (accept_prompt prompt w) = (Returns (Some client), w1).
Hypothesis Hanswer :
  invoke_model env (invoked w) client
    (request_for (history ++ [{| role := "user"; content := PyStr prompt |}]))
  = Returns response_body.

Local Abbreviation user := {| role := "user"; content := PyStr prompt |}.
Local Abbreviation assistant :=
  (fun reply => {| role := "assistant"; content := reply |}).
Local Abbreviation thinking :=
  (emit (StSpinner "AI가 생각중입니다...") w1).

(** The service is asked once, about the conversation with the prompt at
    its end. *)
Lemma respond_bedrock_answered (text : pyval) :
  extract_text env response_body = Returns text ->
  respond env true prompt (accept_prompt prompt w)
  = (Returns text, count_invocation thinking)
  /\ lists w1 = lists (accept_prompt prompt w)
  /\ session_messages w1 = session_messages w
  /\ invoked w1 = invoked w
  /\ slept w1 = slept w.
Proof.
  intros Htext.
  destruct (accept_prompt_frame prompt w history Hhistory)
    as (Hasked & Hsession & _).
  destruct (accept_prompt_rest prompt w) as (_ & Hai & _ & Has & _).
  pose proof (init_bedrock_client_frame env (accept_prompt prompt w))
    as (Hl1 & Hs1 & _).
  pose proof (init_bedrock_client_rest env (accept_prompt prompt w))
    as (Hi1 & Hsl1 & _).
  rewrite Hclient in Hl1, Hs1, Hi1, Hsl1. cbn [snd] in *.
  unfold respond. rewrite Hclient.
  rewrite (call_bedrock_api_answered_at_once env client (session_messages w1)
             thinking response_body text).
  - by rewrite Hl1, Hs1, Hi1, Hsl1, Hai, Has.
  - unfold answer, read_list. autorewrite with world.
    by rewrite Hl1, Hs1, Hsession, Hasked, Hi1, Hai, Nat.add_0_r.
  - exact Htext.
Qed.

(** X17: a whole turn with Bedrock.  When a client is at hand and the
    service answers the request that carries the conversation so far with
    the prompt at its end, and the answer's text is a [str], the turn
    comes to its end after this one invocation: the conversation is the
    old one, the user's message and the assistant's message with that
    text, and the page ends on the text drawn in full. *)
Theorem main_prompt_bedrock_answered (s : string) :
  extract_text env response_body = Returns (PyStr s) ->
  let turn := main_prompt env true prompt w in
  fst turn = Returns tt
  /\ lists (snd turn) !! session_messages w
     = Some (history ++ [user; assistant (PyStr s)])
  /\ invoked (snd turn) = invoked w + 1
  /\ slept (snd turn) = slept w ++ replicate (length (PyStr.chars s)) 0.01%Q
  /\ last (ui (snd turn)) = Some (StPlaceholderMarkdown (PyStr s)).
Proof.
  intros Htext. cbv zeta.
  destruct (respond_bedrock_answered (PyStr s) Htext)
    as (Hrespond & Hl & Hs & Hi & Hsl).
  destruct (main_prompt_ends env prompt w history Hhistory true (PyStr s) _
              Hrespond) as (_ & _ & Hend);
    [by autorewrite with world..|].
  destruct (typing_effect_of_str env s (count_invocation thinking))
    as (Hdone & _ & Hui & Hslept & _ & _ & _ & _ & Hinv & _).
  rewrite Hdone in Hend. destruct Hend as [-> Hconv]. cbn [fst snd].
  split; [reflexivity|]. split; [exact Hconv|].
  autorewrite with world. rewrite Hslept, Hinv, Hui.
  autorewrite with world. rewrite Hi, Hsl.
  split; [lia|]. split; [reflexivity|].
  by rewrite !app_assoc, last_snoc.
Qed.

(** X18: the text is handed on as it is, and a text that cannot be
    iterated over ([null], a number, a boolean) stops the turn: the typing
    loop raises a [TypeError] after the one invocation, the user's message
    stays in the conversation and no assistant message follows it. *)
Theorem main_prompt_bedrock_untypable (text : pyval) :
  extract_text env response_body = Returns text ->
  (forall s, text <> PyStr s) ->
  (forall items, text <> PyList items) ->
  (forall items, text <> PyDict items) ->
  let turn := main_prompt env true prompt w in
  fst turn = Raises (type_error env (NotIterable text))
  /\ lists (snd turn) !! session_messages w = Some (history ++ [user])
  /\ invoked (snd turn) = invoked w + 1
  /\ slept (snd turn) = slept w.
Proof.
  intros Htext Hstr Hlist Hdict. cbv zeta.
  destruct (respond_bedrock_answered text Htext)
    as (Hrespond & Hl & Hs & Hi & Hsl).
  destruct (main_prompt_ends env prompt w history Hhistory true text _
              Hrespond) as (_ & _ & Hend);
    [by autorewrite with world..|].
  assert (Htyping : typing_effect env text (count_invocation thinking)
                    = (Raises (type_error env (NotIterable text)),
                       count_invocation thinking)).
  { unfold typing_effect.
    destruct text as [| | | |s|items|items]; try done.
    - by destruct (Hstr s).
    - by destruct (Hlist items).
    - by destruct (Hdict items). }
  rewrite Htyping in Hend. cbn [fst snd] in Hend.
  destruct Hend as [-> Hconv]. cbn [fst snd].
  split; [reflexivity|]. split; [exact Hconv|].
  autorewrite with world. rewrite Hi, Hsl. split; [lia|reflexivity].
Qed.

End BedrockTurn.

(** ** Conversations as dialogues *)

Lemma dialogue_even (history : list Message) :
  dialogue history = true -> Nat.even (length history) = true.
Proof.
  assert (H : forall n history, length history <= n ->
            dialogue history = true -> Nat.even (length history) = true).
  { clear history. induction n as [|n IH]; intros history Hn.
    - destruct history; [done|]. cbn in Hn. lia.
    - destruct history as [|question [|reply later]]; [done..|].
      cbn [dialogue length]. intros Hd.
      apply andb_true_iff in Hd as [_ Hd].
      cbn [Nat.even]. apply IH; [cbn in Hn; lia|done]. }
  apply (H (length history)). lia.
Qed.

Lemma dialogue_app (history more : list Message) :
  dialogue history = true ->
  dialogue (history ++ more) = dialogue more.
Proof.
  assert (H : forall n history, length history <= n ->
            dialogue history = true ->
            dialogue (history ++ more) = dialogue more).
  { clear history. induction n as [|n IH]; intros history Hn.
    - destruct history; [done|]. cbn in Hn. lia.
    - destruct history as [|question [|reply later]]; [done..|].
      cbn [dialogue app]. intros Hd.
      apply andb_true_iff in Hd as [-> Hd]. cbn [andb].
      apply IH; [cbn in Hn; lia|done]. }
  apply (H (length history)). lia.
Qed.

(** X19: a conversation of whole exchanges (user, assistant, user,
    assistant, ...) stays one through every turn that comes to its end, in
    either mode, and grows by one exchange.  A turn that raises leaves
    the user's message unanswered at the end: the conversation is then no
    longer made of whole exchanges. *)
Theorem main_prompt_keeps_dialogue (env : Env) (use_bedrock : bool)
    (prompt : string) (w : World) (history : list Message) :
  lists w !! session_messages w = Some history ->
  dialogue history = true ->
  let turn := main_prompt env use_bedrock prompt w in
  exists history',
    lists (snd turn) !! session_messages (snd turn) = Some history'
    /\ match fst turn with
       | Returns _ =>
           dialogue history' = true /\ length history' = length history + 2
       | Raises _ =>
           dialogue history' = false /\ length history' = length history + 1
       end.
Proof.
  intros Hhistory Hdialogue. cbv zeta.
  destruct (respond_returns env prompt w history Hhistory use_bedrock)
    as (reply & w1 & Hr & Hl & Hs).
  destruct (main_prompt_ends env prompt w history Hhistory use_bedrock
              reply w1 Hr Hl Hs) as (Hsame & _ & Hend).
  rewrite Hsame.
  destruct (fst (typing_effect env reply w1)) as [[]|e];
    destruct Hend as [-> Hconv]; cbn [fst snd] in *;
    eexists; (split; [exact Hconv|]).
  - rewrite dialogue_app, length_app by done. split; [done|]. cbn. lia.
  - rewrite length_app. split; [|cbn; lia].
    destruct (dialogue (history ++ _)) eqn:Hd; [|done].
    apply dialogue_even in Hd. apply dialogue_even in Hdialogue.
    rewrite length_app, Nat.add_1_r, Nat.even_succ in Hd.
    rewrite <- Nat.negb_even, Hdialogue in Hd. discriminate Hd.
Qed.

(** ** Reset and redraw *)

Lemma new_list_is_new (w : World) : lists w !! new_list w = None.
Proof. apply not_elem_of_dom. unfold new_list. apply is_fresh. Qed.

(** X20: the reset button starts a new conversation in a new list object.
    Afterwards the conversation is empty; every list object that existed,
    the old conversation among them, is as it was; the cache, and with it
    the client, is kept.  A turn played after the reset, in either mode,
    leaves a conversation that starts with its own prompt, and still does
    not touch the old one. *)
Theorem reset_chat_starts_afresh (w : World) :
  let w' := reset_chat w in
  lists w !! session_messages w' = None
  /\ lists w' !! session_messages w' = Some []
  /\ (forall l history,
        lists w !! l = Some history -> lists w' !! l = Some history)
  /\ resource_cache w' = resource_cache w
  /\ constructed w' = constructed w
  /\ invoked w' = invoked w
  /\ (forall env use_bedrock prompt,
        let turn := main_prompt env use_bedrock prompt w' in
        (exists rest,
           lists (snd turn) !! session_messages (snd turn)
           = Some ({| role := "user"; content := PyStr prompt |} :: rest))
        /\ (forall l history,
              lists w !! l = Some history ->
              lists (snd turn) !! l = Some history)).
Proof.
  cbv zeta. pose proof (new_list_is_new w) as Hnew.
  assert (Hempty : lists (reset_chat w) !! session_messages (reset_chat w)
                   = Some []).
  { unfold reset_chat. cbn [lists session_messages].
    apply lookup_insert_eq. }
  assert (Hold : forall l history,
            lists w !! l = Some history ->
            lists (reset_chat w) !! l = Some history
            /\ l <> session_messages (reset_chat w)).
  { intros l history Hl. unfold reset_chat. cbn [lists session_messages].
    assert (new_list w <> l) by congruence.
    by rewrite lookup_insert_ne. }
  split; [done|]. split; [done|]. split; [intros; by apply Hold|].
  split; [done|]. split; [done|]. split; [done|].
  intros env use_bedrock prompt.
  destruct (respond_returns env prompt (reset_chat w) [] Hempty use_bedrock)
    as (reply & w1 & Hr & Hl & Hs).
  destruct (main_prompt_ends env prompt (reset_chat w) [] Hempty use_bedrock
              reply w1 Hr Hl Hs) as (Hsame & Hother & Hend).
  split.
  - rewrite Hsame.
    destruct (fst (typing_effect env reply w1)) as [[]|e];
      destruct Hend as [_ ->]; by eexists.
  - intros l history Hlookup. destruct (Hold l history Hlookup) as [Hl' Hne].
    by rewrite Hother.
Qed.

Lemma show_history_draws (history : list Message) (w : World) :
  let w' := show_history history w in
  ui w' = ui w ++ flat_map drawn history
  /\ lists w' = lists w
  /\ session_messages w' = session_messages w
  /\ resource_cache w' = resource_cache w
  /\ constructed w' = constructed w
  /\ invoked w' = invoked w
  /\ clock_reads w' = clock_reads w
  /\ slept w' = slept w.
Proof.
  cbv zeta. revert w. induction history as [|message later IH]; intros w.
  - cbn. by rewrite app_nil_r.
  - cbn [show_history flat_map].
    destruct (IH (emit (StMarkdown (content message))
                    (emit (StChatMessage (role message)) w)))
      as (-> & -> & -> & -> & -> & -> & -> & ->).
    autorewrite with world. unfold drawn. by rewrite <- !app_assoc.
Qed.

(** X21: a run of the page without a prompt, or with an empty one, only
    redraws: every message of the conversation is drawn again, in order,
    as a chat bubble of its role with its content, and nothing else
    happens; the conversation, the cache and the counts of constructions
    and invocations are as before, and nothing is slept. *)
Theorem main_run_redraws (env : Env) (use_bedrock : bool)
    (prompt : option string) (w : World) :
  prompt = None \/ prompt = Some "" ->
  let run := main_run env use_bedrock prompt w in
  fst run = Returns tt
  /\ ui (snd run) = ui w ++ flat_map drawn (read_list (session_messages w) w)
  /\ length (ui (snd run))
     = length (ui w) + 2 * length (read_list (session_messages w) w)
  /\ lists (snd run) = lists w
  /\ session_messages (snd run) = session_messages w
  /\ resource_cache (snd run) = resource_cache w
  /\ constructed (snd run) = constructed w
  /\ invoked (snd run) = invoked w
  /\ slept (snd run) = slept w.
Proof.
  intros Hprompt. cbv zeta.
  assert (Hrun : main_run env use_bedrock prompt w
                 = (Returns tt,
                    show_history (read_list (session_messages w) w) w)).
  { by destruct Hprompt as [-> | ->]. }
  rewrite Hrun. cbn [fst snd].
  destruct (show_history_draws (read_list (session_messages w) w) w)
    as (-> & -> & -> & -> & -> & -> & _ & ->).
  split; [done|]. split; [done|]. split; [|done].
  rewrite length_app. f_equal. clear Hrun.
  induction (read_list (session_messages w) w) as [|m l IH]; [done|].
  cbn [flat_map drawn length app]. rewrite IH. lia.
Qed.

(** ** The further properties at work on sample worlds *)


Lemma main_prompt_appends_witness :
  session_messages (snd (main_prompt configured false "hi" fresh_world)) = 0
  /\ exists reply,
       lists (snd (main_prompt configured false "hi" fresh_world)) !! 0
       = Some [ {| role := "user"; content := PyStr "hi" |};
                {| role := "assistant"; content := reply |} ].
Proof.
  destruct (main_prompt_appends configured "hi" fresh_world [] eq_refl false)
    as (Hsession & _ & Hend).
  split; [exact Hsession|].
  change (fst (main_prompt configured false "hi" fresh_world))
    with (@Returns unit tt) in Hend.
  exact Hend.
Defined.

Lemma main_prompt_local_witness :
  fst (main_prompt configured false "날씨 알려줘" fresh_world) = Returns tt
  /\ lists (snd (main_prompt configured false "날씨 알려줘" fresh_world)) !! 0
     = Some [ {| role := "user"; content := PyStr "날씨 알려줘" |};
              {| role := "assistant"; content := PyStr weather_reply |} ]
  /\ invoked (snd (main_prompt configured false "날씨 알려줘" fresh_world)) = 0.
Proof.
  destruct (main_prompt_local configured "날씨 알려줘" fresh_world [] eq_refl)
    as (Hdone & Hconversation & _ & _ & Hinvoked & _).
  exact (conj Hdone (conj Hconversation Hinvoked)).
Defined.

Lemma main_prompt_without_client_witness :
  fst (main_prompt unconfigured true "hi" fresh_world) = Returns tt
  /\ lists (snd (main_prompt unconfigured true "hi" fresh_world)) !! 0
     = Some [ {| role := "user"; content := PyStr "hi" |};
              {| role := "assistant";
                 content := PyStr (connection_failed +:+ PyStr.nl +:+ PyStr.nl
                                   +:+ generic_fallback) |} ]
  /\ invoked (snd (main_prompt unconfigured true "hi" fresh_world)) = 0.
Proof.
  destruct (main_prompt_without_client unconfigured "hi" fresh_world []
              eq_refl eq_refl)
    as (Hdone & Hconversation & _ & Hinvoked).
  exact (conj Hdone (conj Hconversation Hinvoked)).
Defined.

Lemma main_prompt_bedrock_answered_witness :
  fst (main_prompt (scripted [Returns hello_body]) true "hi" fresh_world)
  = Returns tt
  /\ lists (snd (main_prompt (scripted [Returns hello_body]) true "hi"
                   fresh_world)) !! 0
     = Some [ {| role := "user"; content := PyStr "hi" |};
              {| role := "assistant"; content := PyStr "hello" |} ]
  /\ invoked (snd (main_prompt (scripted [Returns hello_body]) true "hi"
                     fresh_world)) = 1.
Proof.
  destruct (main_prompt_bedrock_answered (scripted [Returns hello_body])
              "hi" fresh_world [] {| client_id := 0 |}
              (snd (init_bedrock_client (scripted [Returns hello_body])
                      (accept_prompt "hi" fresh_world)))
              hello_body eq_refl)
    with (s := "hello") as (Hdone & Hconversation & Hinvoked & _).
  - vm_compute. reflexivity.
  - reflexivity.
  - reflexivity.
  - exact (conj Hdone (conj Hconversation Hinvoked)).
Defined.

Lemma main_prompt_bedrock_untypable_witness :
  let env :=
    scripted [Returns (PyDict [("content",
                                PyList [PyDict [("text", PyInt 5)]])])] in
  fst (main_prompt env true "hi" fresh_world)
  = Raises (type_error env (NotIterable (PyInt 5)))
  /\ lists (snd (main_prompt env true "hi" fresh_world)) !! 0
     = Some [ {| role := "user"; content := PyStr "hi" |} ].
Proof.
  cbv zeta.
  destruct (main_prompt_bedrock_untypable
              (scripted [Returns (PyDict [("content",
                                           PyList [PyDict [("text", PyInt 5)]])])])
              "hi" fresh_world [] {| client_id := 0 |}
              (snd (init_bedrock_client
                      (scripted [Returns (PyDict [("content",
                                                   PyList [PyDict [("text", PyInt 5)]])])])
                      (accept_prompt "hi" fresh_world)))
              (PyDict [("content", PyList [PyDict [("text", PyInt 5)]])])
              eq_refl)
    with (text := PyInt 5) as (Hraised & Hconversation & _).
  - vm_compute. reflexivity.
  - reflexivity.
  - reflexivity.
  - intros s H. discriminate H.
  - intros items H. discriminate H.
  - intros items H. discriminate H.
  - exact (conj Hraised Hconversation).
Defined.

Lemma main_prompt_keeps_dialogue_witness :
  exists history',
    lists (snd (main_prompt configured false "hi" fresh_world))
      !! session_messages (snd (main_prompt configured false "hi" fresh_world))
    = Some history'
    /\ dialogue history' = true /\ length history' = 2.
Proof.
  destruct (main_prompt_keeps_dialogue configured false "hi" fresh_world []
              eq_refl eq_refl) as (history' & Hlookup & Hend).
  change (fst (main_prompt configured false "hi" fresh_world))
    with (@Returns unit tt) in Hend.
  exists history'. exact (conj Hlookup Hend).
Defined.

Lemma reset_chat_starts_afresh_witness :
  lists (reset_chat fresh_world) !! 0 = Some [].
Proof.
  apply (proj1 (proj2 (proj2 (reset_chat_starts_afresh fresh_world))) 0 []).
  reflexivity.
Defined.

Lemma main_run_redraws_witness :
  fst (main_run configured true (Some "") fresh_world) = Returns tt
  /\ ui (snd (main_run configured true (Some "") fresh_world)) = [].
Proof.
  destruct (main_run_redraws configured true (Some "") fresh_world)
    as (Hdone & Hui & _).
  - right. reflexivity.
  - exact (conj Hdone Hui).
Defined.
